(** * azka-blog: the index and detail pages over a Sanity content lake

    A shallow embedding of [src/app/page.tsx], [src/app/blog/[slug]/page.tsx]
    and the client configuration module, with the properties of the
    specification stated over it.

    - JavaScript values that may be [null] or [undefined] are [option]s.
    - A call that may throw returns a [Completion].
    - JSX is a tree of [ReactNode]s; a child that React does not render
      ([null], [false], the empty string) is left out of the child list.
    - The content lake is a list of [Doc.t]; a GROQ query is the function it
      denotes over that list. *)

From Stdlib Require Import String Ascii List ZArith Bool DecimalString.
From Stdlib Require Import Sorting.Mergesort Sorting.Sorted Sorting.Permutation Orders.
Import ListNotations.
Set Warnings "-register-all".
Local Open Scope string_scope.
Local Open Scope list_scope.

(** ** Completions *)

Inductive JsError : Type :=
| Error (message : string)
| TypeError (message : string)
| RangeError (message : string).

Inductive Completion (A : Type) : Type :=
| Normal (a : A)
| Throw (e : JsError).
Arguments Normal {A} a.
Arguments Throw {A} e.

Definition bind {A B} (c : Completion A) (k : A -> Completion B) : Completion B :=
  match c with
  | Normal a => k a
  | Throw e => Throw e
  end.

Declare Scope js_scope.
Delimit Scope js_scope with js.
Notation "'let*' x ':=' c 'in' k" := (bind c (fun x => k))
  (at level 10, x name, c at level 100, k at level 200) : js_scope.
Local Open Scope js_scope.

(** [Array.prototype.map] with a callback that may throw: the callbacks run
    left to right and the first exception ends the loop. *)
Fixpoint mapM {A B} (f : A -> Completion B) (l : list A) : Completion (list B) :=
  match l with
  | [] => Normal []
  | a :: l' =>
      let* b := f a in
      let* bs := mapM f l' in
      Normal (b :: bs)
  end.

(** ** Truthiness and string helpers *)

(** A string-or-undefined value is truthy when it is a non-empty string. *)
Definition truthy (s : option string) : bool :=
  match s with
  | Some s' => negb (s' =? "")
  | None => false
  end.

(** Template-literal and [join] coercion of a possibly missing string. *)
Definition template (s : option string) : string :=
  match s with Some s' => s' | None => "undefined" end.

Definition join_item (s : option string) : string :=
  match s with Some s' => s' | None => "" end.

Fixpoint join (sep : string) (l : list (option string)) : string :=
  match l with
  | [] => ""
  | [x] => join_item x
  | x :: l' => (join_item x ++ sep ++ join sep l')%string
  end.

(** ** React element trees *)

Inductive PropValue : Type :=
| PStr (s : string)
| PNum (n : Z)
| PBool (b : bool).

Inductive ReactNode : Type :=
| Element (type : string) (props : list (string * PropValue)) (children : list ReactNode)
| Text (s : string).

Definition className (c : string) : string * PropValue := ("className", PStr c).

(** [{x}] for a string-or-undefined [x]: nothing is rendered for
    [undefined], [null] and the empty string. *)
Definition text_child (s : option string) : list ReactNode :=
  match s with
  | Some s' => if s' =? "" then [] else [Text s']
  | None => []
  end.

(** ** The content lake *)

Record SanityReference := { _ref : string }.
Record SanitySlug := { current : option string }.
Record SanityImage := {
  asset : option SanityReference;
  alt : option string;
  caption : option string }.
Record SEO := {
  metaTitle : option string;
  metaDescription : option string;
  keywords : option (list string) }.

(** A node of a Portable Text body.  [_type] is the discriminant; the other
    fields are those the rendering rules read. *)
Record TypedObject := {
  _type : string;
  style : option string;
  children : list string;
  img : SanityImage;
  code : option string;
  filename : option string;
  language : option string }.

Module Doc.
(** A stored document: the attributes the two queries read. *)
Record t := {
  _id : string;
  _type : string;
  title : option string;
  slug : option SanitySlug;
  publishedAt : option string;
  status : option string;
  body : option (list TypedObject);
  excerpt : option string;
  author : option SanityReference;
  categories : option (list SanityReference);
  mainImage : option SanityImage;
  tags : option (list string);
  seo : option SEO;
  name : option string;
  image : option SanityImage }.
End Doc.

Definition Dataset := list Doc.t.

(** GROQ [ref->]: the first document whose [_id] is the reference. *)
Definition deref (ds : Dataset) (r : SanityReference) : option Doc.t :=
  find (fun d => Doc._id d =? _ref r) ds.

(** GROQ [attr == "literal"] on a possibly missing attribute. *)
Definition attr_eq (a : option string) (lit : string) : bool :=
  match a with Some s => s =? lit | None => false end.

(** GROQ [defined(attr)]. *)
Definition defined {A} (a : option A) : bool :=
  match a with Some _ => true | None => false end.

(** GROQ [slug.current]. *)
Definition slug_current (d : Doc.t) : option string :=
  match Doc.slug d with Some s => current s | None => None end.

(** *** Ordering of sort keys *)

(** GROQ compares strings code point by code point; a missing key sorts
    before every string. *)
Definition key_leb (a b : option string) : bool :=
  match a, b with
  | None, _ => true
  | Some _, None => false
  | Some x, Some y => String.leb x y
  end.

Module PublishedAtDesc <: TotalLeBool.
Definition t := Doc.t.
(** [order(publishedAt desc)]: [a] may come before [b] when the key of [b]
    is no later than the key of [a]. *)
Definition leb (a b : t) : bool := key_leb (Doc.publishedAt b) (Doc.publishedAt a).
Theorem leb_total : forall a b, leb a b = true \/ leb b a = true.
Proof.
  intros a b. unfold leb, key_leb.
  destruct (Doc.publishedAt a) as [x|], (Doc.publishedAt b) as [y|]; auto.
  destruct (String.leb_total y x); auto.
Qed.
End PublishedAtDesc.

Module OrderPublishedAtDesc := Sort PublishedAtDesc.

(** * The index page, [src/app/page.tsx] *)

Module Index.

Record Category := { title : option string }.
Record Author := { name : option string }.

Module Post.
Record t := {
  _id : string;
  title : option string;
  slug : option SanitySlug;
  publishedAt : option string;
  author : option Author;
  categories : option (list (option Category)) }.
End Post.

(** The filter of [POSTS_QUERY]. *)
Definition POSTS_QUERY_filter (d : Doc.t) : bool :=
  (Doc._type d =? "post")
  && defined (slug_current d)
  && defined (Doc.publishedAt d)
  && attr_eq (Doc.status d) "published".

(** The projection of [POSTS_QUERY]; [author->{name}] and
    [categories[]->{title}] follow references into the dataset, and a
    reference that resolves to nothing projects to [null]. *)
Definition deref_author (ds : Dataset) (r : option SanityReference) : option Author :=
  match r with
  | Some r' => option_map (fun a => {| name := Doc.name a |}) (deref ds r')
  | None => None
  end.

Definition deref_categories (ds : Dataset) (rs : option (list SanityReference))
  : option (list (option Category)) :=
  option_map (map (fun r => option_map (fun c => {| title := Doc.title c |}) (deref ds r))) rs.

Definition POSTS_QUERY_projection (ds : Dataset) (d : Doc.t) : Post.t :=
  {| Post._id := Doc._id d;
     Post.title := Doc.title d;
     Post.slug := Doc.slug d;
     Post.publishedAt := Doc.publishedAt d;
     Post.author := deref_author ds (Doc.author d);
     Post.categories := deref_categories ds (Doc.categories d) |}.

(** The documents [POSTS_QUERY] selects, in result order:
    filter, [order(publishedAt desc)], slice [[0...12]]. *)
Definition POSTS_QUERY_matches (ds : Dataset) : list Doc.t :=
  firstn 12 (OrderPublishedAtDesc.sort (filter POSTS_QUERY_filter ds)).

Definition POSTS_QUERY (ds : Dataset) : list Post.t :=
  map (POSTS_QUERY_projection ds) (POSTS_QUERY_matches ds).

(** [!posts?.length] *)
Definition no_length (posts : option (list Post.t)) : bool :=
  match posts with
  | None => true
  | Some l => Nat.eqb (length l) 0
  end.

Definition no_posts_view : ReactNode :=
  Element "main" [className "container mx-auto min-h-screen max-w-3xl p-8"]
    [ Element "h1" [className "text-4xl font-bold mb-8"] [Text "Blog Posts"];
      Element "p" [className "text-gray-600"] [Text "No posts found."] ].

Definition posts_view (cards : list ReactNode) : ReactNode :=
  Element "main" [className "container mx-auto min-h-screen max-w-3xl p-8"]
    [ Element "h1" [className "text-4xl font-bold mb-8"] [Text "Blog Posts"];
      Element "div" [className "grid gap-6"] cards ].

Section Page.
(** [format(new Date(publishedAt), "MMMM d, yyyy")] of date-fns, which
    throws on a date it cannot read. *)
Variable format_date : option string -> Completion string.

(** [post.slug.current] inside the link template. *)
Definition post_href (post : Post.t) : Completion string :=
  match Post.slug post with
  | Some s => Normal ("/blog/" ++ template (current s))%string
  | None => Throw (TypeError "Cannot read properties of null (reading 'current')")
  end.

(** [post.author.name] *)
Definition author_name (a : option Author) : Completion (option string) :=
  match a with
  | Some a' => Normal (name a')
  | None => Throw (TypeError "Cannot read properties of null (reading 'name')")
  end.

(** [cat.title] in the callback of [categories.map]. *)
Definition category_title (c : option Category) : Completion (option string) :=
  match c with
  | Some c' => Normal (title c')
  | None => Throw (TypeError "Cannot read properties of null (reading 'title')")
  end.

(** [post.categories && post.categories.length > 0 && (<>...</>)] *)
Definition categories_fragment (cs : option (list (option Category)))
  : Completion (list ReactNode) :=
  match cs with
  | None | Some [] => Normal []
  | Some cs' =>
      let* titles := mapM category_title cs' in
      Normal [ Element "span" [] [Text "â€¢"];
               Element "span" [] (Text "Categories: " :: text_child (Some (join ", " titles))) ]
  end.

(** The callback of [posts.map]: one card per post. *)
Definition post_card (post : Post.t) : Completion ReactNode :=
  let* href := post_href post in
  let* date := format_date (Post.publishedAt post) in
  let* by_name := author_name (Post.author post) in
  let* cats := categories_fragment (Post.categories post) in
  Normal
    (Element "Card"
       [("key", PStr (Post._id post));
        className "hover:shadow-lg transition-shadow duration-200"]
       [Element "Link" [("href", PStr href)]
          [ Element "CardHeader" []
              [Element "CardTitle"
                 [className "text-xl hover:text-blue-600 transition-colors"]
                 (text_child (Post.title post))];
            Element "CardContent" []
              [Element "div" [className "space-y-2"]
                 [ Element "p" [className "text-sm text-gray-600"]
                     (Text "Published on " :: text_child (Some date));
                   Element "div"
                     [className "flex flex-wrap gap-2 items-center text-sm text-gray-500"]
                     (Element "span" [] (Text "By " :: text_child by_name) :: cats) ]] ]]).

(** [BlogIndexPage] from the point where the fetch has returned. *)
Definition BlogIndexPage_of (posts : option (list Post.t)) : Completion ReactNode :=
  if no_length posts then Normal no_posts_view
  else
    match posts with
    | Some l => let* cards := mapM post_card l in Normal (posts_view cards)
    | None => Normal no_posts_view
    end.

Definition BlogIndexPage (ds : Dataset) : Completion ReactNode :=
  BlogIndexPage_of (Some (POSTS_QUERY ds)).
End Page.

End Index.

(** * The client module, [sanity/Client] *)

Module ClientConfig.
Record t := {
  projectId : option string;
  dataset : option string;
  apiVersion : option string;
  useCdn : bool }.
End ClientConfig.

(** The configuration [createClient] is called with; [client.config()]
    returns it. *)
Definition client : ClientConfig.t :=
  {| ClientConfig.projectId := Some "ppql4ntm";
     ClientConfig.dataset := Some "production";
     ClientConfig.apiVersion := Some "2024-01-01";
     ClientConfig.useCdn := false |}.

(** * The image URL builder interface *)

(** The options an [ImageUrlBuilder] carries.  Every builder method returns
    a new builder with one option replaced. *)
Record ImageUrlBuilder := {
  projectId : string;
  dataset : string;
  source : option SanityImage;
  width : option Z;
  height : option Z }.

Definition imageUrlBuilder (projectId dataset : string) : ImageUrlBuilder :=
  {| projectId := projectId; dataset := dataset;
     source := None; width := None; height := None |}.

Definition with_image (s : SanityImage) (b : ImageUrlBuilder) : ImageUrlBuilder :=
  {| projectId := projectId b; dataset := dataset b;
     source := Some s; width := width b; height := height b |}.

Definition with_width (w : Z) (b : ImageUrlBuilder) : ImageUrlBuilder :=
  {| projectId := projectId b; dataset := dataset b;
     source := source b; width := Some w; height := height b |}.

Definition with_height (h : Z) (b : ImageUrlBuilder) : ImageUrlBuilder :=
  {| projectId := projectId b; dataset := dataset b;
     source := source b; width := width b; height := Some h |}.

(** * The detail page, [src/app/blog/[slug]/page.tsx] *)

Module Detail.

Record Author := {
  author_id : string;
  name : option string;
  image : option SanityImage }.

Record Category := {
  category_id : string;
  title : option string }.

Module Post.
Record t := {
  _id : string;
  _type : string;
  title : option string;
  slug : option SanitySlug;
  publishedAt : option string;
  body : option (list TypedObject);
  excerpt : option string;
  author : option Author;
  categories : option (list (option Category));
  mainImage : option SanityImage;
  tags : option (list string);
  seo : option SEO;
  status : option string }.
End Post.

Record PostPageProps := { params_slug : string }.

(** The filter of [POST_QUERY]. *)
Definition POST_QUERY_filter (slug : string) (d : Doc.t) : bool :=
  (Doc._type d =? "post")
  && attr_eq (slug_current d) slug
  && attr_eq (Doc.status d) "published".

Definition deref_author (ds : Dataset) (r : option SanityReference) : option Author :=
  match r with
  | Some r' =>
      option_map
        (fun a => {| author_id := Doc._id a; name := Doc.name a; image := Doc.image a |})
        (deref ds r')
  | None => None
  end.

Definition deref_categories (ds : Dataset) (rs : option (list SanityReference))
  : option (list (option Category)) :=
  option_map
    (map (fun r =>
            option_map (fun c => {| category_id := Doc._id c; title := Doc.title c |})
                       (deref ds r)))
    rs.

(** [mainImage { asset->, alt, caption }]: the asset document the
    reference resolves to is kept by its [_id]. *)
Definition deref_mainImage (ds : Dataset) (i : option SanityImage) : option SanityImage :=
  option_map
    (fun i' =>
       {| asset :=
           match asset i' with
           | Some r => option_map (fun a => {| _ref := Doc._id a |}) (deref ds r)
           | None => None
           end;
          alt := alt i';
          caption := caption i' |})
    i.

Definition POST_QUERY_projection (ds : Dataset) (d : Doc.t) : Post.t :=
  {| Post._id := Doc._id d;
     Post._type := Doc._type d;
     Post.title := Doc.title d;
     Post.slug := Doc.slug d;
     Post.publishedAt := Doc.publishedAt d;
     Post.body := Doc.body d;
     Post.excerpt := Doc.excerpt d;
     Post.author := deref_author ds (Doc.author d);
     Post.categories := deref_categories ds (Doc.categories d);
     Post.mainImage := deref_mainImage ds (Doc.mainImage d);
     Post.tags := Doc.tags d;
     Post.seo := Doc.seo d;
     Post.status := Doc.status d |}.

(** The document [POST_QUERY] selects: the filter, then [[0]]. *)
Definition POST_QUERY_match (ds : Dataset) (slug : string) : option Doc.t :=
  find (POST_QUERY_filter slug) ds.

Definition POST_QUERY (ds : Dataset) (params : PostPageProps) : option Post.t :=
  option_map (POST_QUERY_projection ds) (POST_QUERY_match ds (params_slug params)).

(** ** Module initialisation *)

Definition config_error : JsError := Error "Sanity project ID and dataset are required".

(** Lines 104-108: read the identifiers from the client configuration,
    throw when one is falsy, otherwise make the builder. *)
Definition module_init (config : ClientConfig.t) : Completion ImageUrlBuilder :=
  let projectId := ClientConfig.projectId config in
  let dataset := ClientConfig.dataset config in
  if negb (truthy projectId) || negb (truthy dataset) then Throw config_error
  else Normal (imageUrlBuilder (template projectId) (template dataset)).

(** ** Page metadata *)

Record Metadata := {
  meta_title : option string;
  meta_description : option string;
  meta_keywords : option (list string) }.

(** [a ?? b] *)
Definition nullish {A} (a b : option A) : option A :=
  match a with Some _ => a | None => b end.

(** [object?.field] *)
Definition chain {O A} (f : O -> option A) (o : option O) : option A :=
  match o with Some o' => f o' | None => None end.

(** [generateMetadata] from the point where the fetch has returned. *)
Definition generateMetadata_of (post : option Post.t) : Metadata :=
  match post with
  | None =>
      {| meta_title := Some "Post Not Found";
         meta_description := None;
         meta_keywords := None |}
  | Some post =>
      {| meta_title := nullish (chain metaTitle (Post.seo post)) (Post.title post);
         meta_description :=
           nullish (nullish (chain metaDescription (Post.seo post)) (Post.excerpt post)) None;
         meta_keywords := nullish (chain keywords (Post.seo post)) None |}
  end.

Definition generateMetadata (ds : Dataset) (params : PostPageProps) : Completion Metadata :=
  Normal (generateMetadata_of (POST_QUERY ds params)).

(** ** Rendering *)

Definition not_found_view : ReactNode :=
  Element "main" [className "container mx-auto min-h-screen max-w-3xl p-8"]
    [ Element "Link"
        [("href", PStr "/"); className "text-blue-600 hover:underline mb-4 inline-block"]
        [Text "← Back to posts"];
      Element "h1" [className "text-4xl font-bold"] [Text "Post not found"] ].

(** [a || b] on strings that may be missing. *)
Definition or_else (a b : option string) : option string :=
  if truthy a then a else b.

(** A prop whose value may be [undefined] is not set. *)
Definition opt_prop (k : string) (v : option string) : list (string * PropValue) :=
  match v with Some s => [(k, PStr s)] | None => [] end.

Section Page.
(** The module-level [builder]. *)
Variable builder : ImageUrlBuilder.
(** [ImageUrlBuilder.url()]: the URL for the builder's options, a
    falsy value, or an exception. *)
Variable url : ImageUrlBuilder -> Completion (option string).
(** [format(new Date(publishedAt), "MMMM d, yyyy")] of date-fns. *)
Variable format_date : option string -> Completion string.
(** [cn] of [@/lib/utils] on its class arguments, falsy ones as [None]. *)
Variable cn : list (option string) -> string.

Definition urlFor (source : SanityImage) : ImageUrlBuilder :=
  with_image source builder.

(** *** [components.types] *)

Definition types_image (value : TypedObject) : Completion (option ReactNode) :=
  let* imageUrl := url (with_width 800 (urlFor (img value))) in
  if negb (truthy imageUrl) then Normal None
  else
    Normal (Some
      (Element "figure" [className "my-8"]
         (Element "Image"
            [("src", PStr (template imageUrl));
             ("alt", PStr (join_item (or_else (alt (img value)) (Some ""))));
             ("width", PNum 800); ("height", PNum 450);
             className "rounded-lg"] []
          :: (if truthy (caption (img value))
              then [Element "figcaption"
                      [className "text-center text-sm text-gray-500 mt-2"]
                      (text_child (caption (img value)))]
              else [])))).

(** The builder the image rule asks a URL of. *)
Definition image_request (value : TypedObject) : ImageUrlBuilder :=
  with_width 800 (urlFor (img value)).

Definition types_code (value : TypedObject) : Completion (option ReactNode) :=
  Normal (Some
    (Element "pre" [className "bg-gray-100 p-4 rounded-lg overflow-x-auto"]
       (Element "code"
          [className
             (cn [Some "text-sm";
                  if truthy (language value)
                  then Some ("language-" ++ template (language value))%string
                  else None])]
          (text_child (code value))
        :: (if truthy (filename value)
            then [Element "div" [className "text-xs text-gray-500 mt-2"]
                    (text_child (filename value))]
            else [])))).

Definition components_types (type : string)
  : option (TypedObject -> Completion (option ReactNode)) :=
  if type =? "image" then Some types_image
  else if type =? "code" then Some types_code
  else None.

(** *** [components.block] *)

Definition block_h1 (children : list ReactNode) : ReactNode :=
  Element "h1" [className "text-3xl font-bold mt-8 mb-4"] children.
Definition block_h2 (children : list ReactNode) : ReactNode :=
  Element "h2" [className "text-2xl font-bold mt-6 mb-3"] children.
Definition block_h3 (children : list ReactNode) : ReactNode :=
  Element "h3" [className "text-xl font-bold mt-4 mb-2"] children.
Definition block_blockquote (children : list ReactNode) : ReactNode :=
  Element "blockquote" [className "border-l-4 border-gray-300 pl-4 my-4 italic"] children.

Definition components_block (style : string) : option (list ReactNode -> ReactNode) :=
  if style =? "h1" then Some block_h1
  else if style =? "h2" then Some block_h2
  else if style =? "h3" then Some block_h3
  else if style =? "blockquote" then Some block_blockquote
  else None.

(** *** The renderer *)

(** The style of a text block; a block without one is plain text. *)
Definition block_style (b : TypedObject) : string :=
  match style b with Some s => s | None => "normal" end.

(** Modelled from the spec: the dispatcher of the Portable Text renderer
    ([PortableText] of @portabletext/react), which is not part of the
    sources.  Each block is rendered by the rule of its discriminant, in
    input order; plain text is a paragraph; a block whose discriminant
    has no rule renders as nothing. *)
Definition render_block (b : TypedObject) : Completion (list ReactNode) :=
  if _type b =? "block" then
    match components_block (block_style b) with
    | Some rule => Normal [rule (map Text (children b))]
    | None =>
        if block_style b =? "normal"
        then Normal [Element "p" [] (map Text (children b))]
        else Normal []
    end
  else
    match components_types (_type b) with
    | Some rule =>
        let* fragment := rule b in
        Normal (match fragment with Some f => [f] | None => [] end)
    | None => Normal []
    end.

(** Modelled from the spec: [PortableText] renders the blocks one by one
    and concatenates the fragments. *)
Fixpoint PortableText (value : list TypedObject) : Completion (list ReactNode) :=
  match value with
  | [] => Normal []
  | b :: value' =>
      let* fragment := render_block b in
      let* rest := PortableText value' in
      Normal (fragment ++ rest)
  end.

(** The discriminants with a rendering rule. *)
Definition recognized (b : TypedObject) : bool :=
  if _type b =? "block" then
    existsb (String.eqb (block_style b)) ["normal"; "h1"; "h2"; "h3"; "blockquote"]
  else
    existsb (String.eqb (_type b)) ["image"; "code"].

(** *** [PostPage] *)

(** [post.author.name] *)
Definition author_name (a : option Author) : Completion (option string) :=
  match a with
  | Some a' => Normal (name a')
  | None => Throw (TypeError "Cannot read properties of null (reading 'name')")
  end.

(** [cat.title] in the callback of [categories.map]. *)
Definition category_title (c : option Category) : Completion (option string) :=
  match c with
  | Some c' => Normal (title c')
  | None => Throw (TypeError "Cannot read properties of null (reading 'title')")
  end.

Definition categories_fragment (cs : option (list (option Category)))
  : Completion (list ReactNode) :=
  match cs with
  | None | Some [] => Normal []
  | Some cs' =>
      let* titles := mapM category_title cs' in
      Normal [ Element "span" [] [Text "•"];
               Element "span" [] (text_child (Some (join ", " titles))) ]
  end.

(** [post.mainImage ? urlFor(post.mainImage).width(1200).height(675).url() : null] *)
Definition mainImageUrl (post : Post.t) : Completion (option string) :=
  match Post.mainImage post with
  | Some i => url (with_height 675 (with_width 1200 (urlFor i)))
  | None => Normal None
  end.

Definition main_image_fragment (post : Post.t) (imageUrl : option string)
  : list ReactNode :=
  if truthy imageUrl then
    [Element "div" [className "relative aspect-video w-full overflow-hidden rounded-xl"]
       (Element "Image"
          ([("src", PStr (template imageUrl))]
           ++ opt_prop "alt" (or_else (chain alt (Post.mainImage post)) (Post.title post))
           ++ [("fill", PBool true); className "object-cover"; ("priority", PBool true)])
          []
        :: (if truthy (chain caption (Post.mainImage post))
            then [Element "p"
                    [className "absolute bottom-0 w-full bg-black/60 p-2 text-sm text-white"]
                    (text_child (chain caption (Post.mainImage post)))]
            else []))]
  else [].

Definition tags_fragment (tags : option (list string)) : list ReactNode :=
  match tags with
  | None | Some [] => []
  | Some tags' =>
      [Element "div" [className "flex flex-wrap gap-2 pt-8"]
         (map (fun tag =>
                 Element "span"
                   [("key", PStr tag);
                    className "bg-gray-100 px-3 py-1 rounded-full text-sm text-gray-700"]
                   (text_child (Some tag)))
              tags')]
  end.

Definition seo_line (label : string) (v : option string) : list ReactNode :=
  if truthy v
  then [Element "p" [] (Element "strong" [] [Text label] :: Text " " :: text_child v)]
  else [].

Definition seo_fragment (seo : option SEO) : list ReactNode :=
  match seo with
  | None => []
  | Some seo' =>
      [Element "Card" [className "mt-12"]
         [Element "CardContent" [className "space-y-4 pt-6"]
            (Element "h2" [className "text-xl font-semibold"] [Text "SEO Information"]
             :: seo_line "Meta Title:" (metaTitle seo')
             ++ seo_line "Meta Description:" (metaDescription seo')
             ++ match keywords seo' with
                | None | Some [] => []
                | Some ks =>
                    [Element "p" []
                       (Element "strong" [] [Text "Meta Keywords:"] :: Text " "
                        :: text_child (Some (join ", " (map Some ks))))]
                end)]]
  end.

(** [PostPage] from the point where the fetch has returned.  The body is
    rendered in place, and a missing body is rendered as an empty one. *)
Definition PostPage_of (post : option Post.t) : Completion ReactNode :=
  match post with
  | None => Normal not_found_view
  | Some post =>
      let* imageUrl := mainImageUrl post in
      let* date := format_date (Post.publishedAt post) in
      let* by_name := author_name (Post.author post) in
      let* cats := categories_fragment (Post.categories post) in
      let* body :=
        PortableText (match Post.body post with Some b => b | None => [] end) in
      Normal
        (Element "main" [className "container mx-auto min-h-screen max-w-3xl p-8"]
           [ Element "Link"
               [("href", PStr "/");
                className "text-blue-600 hover:underline mb-8 inline-block"]
               [Text "← Back to posts"];
             Element "article" [className "space-y-8"]
               (main_image_fragment post imageUrl
                ++ [ Element "div" [className "space-y-4"]
                       ([ Element "h1" [className "text-4xl font-bold"]
                            (text_child (Post.title post));
                          Element "div"
                            [className "flex flex-wrap gap-4 text-sm text-gray-600"]
                            ([ Element "time" (opt_prop "dateTime" (Post.publishedAt post))
                                 (text_child (Some date));
                               Element "span" [] [Text "•"];
                               Element "span" [] (Text "By " :: text_child by_name) ]
                             ++ cats) ]
                        ++ (if truthy (Post.excerpt post)
                            then [Element "p" [className "text-lg text-gray-600 italic"]
                                    (text_child (Post.excerpt post))]
                            else []));
                     Element "div" [className "prose prose-lg max-w-none"] body ]
                ++ tags_fragment (Post.tags post)
                ++ seo_fragment (Post.seo post)) ])
  end.

Definition PostPage (ds : Dataset) (params : PostPageProps) : Completion ReactNode :=
  PostPage_of (POST_QUERY ds params).
End Page.

(** ** The module as a whole *)

(** What the module exports once its top-level statements have run. *)
Record PageModule := {
  exports_default : Dataset -> PostPageProps -> Completion ReactNode;
  exports_generateMetadata : Dataset -> PostPageProps -> Completion Metadata;
  module_urlFor : SanityImage -> ImageUrlBuilder }.

Section Load.
Variable url : ImageUrlBuilder -> Completion (option string).
Variable format_date : option string -> Completion string.
Variable cn : list (option string) -> string.

(** Evaluation of the module: the configuration check runs first, and
    the exports exist only if it does not throw. *)
Definition load (config : ClientConfig.t) : Completion PageModule :=
  let* builder := module_init config in
  Normal {| exports_default := PostPage builder url format_date cn;
            exports_generateMetadata := generateMetadata;
            module_urlFor := urlFor builder |}.
End Load.
End Detail.

(** * Vocabulary of the specification *)

Module IndexSpec.
Import Index.

(** What the filter of [POSTS_QUERY] guarantees of a document. *)
Definition eligible (d : Doc.t) : Prop :=
  Doc._type d = "post"
  /\ Doc.status d = Some "published"
  /\ (exists s c, Doc.slug d = Some s /\ current s = Some c)
  /\ (exists t, Doc.publishedAt d = Some t).

(** [p] is listed before [q] only if its timestamp is no earlier. *)
Definition not_older (p q : Post.t) : Prop :=
  exists x y, Post.publishedAt p = Some x /\ Post.publishedAt q = Some y
              /\ String.leb y x = true.

(** [p] is listed before [q] only if its timestamp is later. *)
Definition newer (p q : Post.t) : Prop :=
  exists x y, Post.publishedAt p = Some x /\ Post.publishedAt q = Some y
              /\ String.ltb y x = true.

(** The statement about the index query, for a given order on the
    entries of the result. *)
Definition index_query_spec (before : Post.t -> Post.t -> Prop) (ds : Dataset) : Prop :=
  length (POSTS_QUERY ds) <= 12
  /\ (forall p, In p (POSTS_QUERY ds) ->
        exists d, In d ds /\ eligible d /\ p = POSTS_QUERY_projection ds d)
  /\ StronglySorted before (POSTS_QUERY ds).

(** Two published posts that carry the same timestamp. *)
Definition post_doc (id slug at_ status : string) : Doc.t :=
  {| Doc._id := id; Doc._type := "post"; Doc.title := Some id;
     Doc.slug := Some {| current := Some slug |};
     Doc.publishedAt := Some at_; Doc.status := Some status;
     Doc.body := None; Doc.excerpt := None; Doc.author := None;
     Doc.categories := None; Doc.mainImage := None; Doc.tags := None;
     Doc.seo := None; Doc.name := None; Doc.image := None |}.

Definition same_day : Dataset :=
  [ post_doc "a" "first" "2024-01-01T00:00:00Z" "published";
    post_doc "b" "second" "2024-01-01T00:00:00Z" "published" ].

(** A dataset in which nothing is published. *)
Definition drafts_only : Dataset :=
  [ post_doc "a" "first" "2024-01-01T00:00:00Z" "draft";
    post_doc "b" "second" "2024-01-02T00:00:00Z" "archived" ].

(** A formatter to run the pages on concrete input.  It is not date-fns:
    it prints one date for every string and throws on a missing one. *)
Definition sample_format_date (at_ : option string) : Completion string :=
  match at_ with
  | Some _ => Normal "January 1, 2024"
  | None => Throw (RangeError "Invalid time value")
  end.
End IndexSpec.

(** The image URLs and the texts of a rendered tree. *)
Definition prop_src (p : string * PropValue) : list string :=
  match p with
  | (k, PStr s) => if k =? "src" then [s] else []
  | _ => []
  end.

Fixpoint node_urls (n : ReactNode) : list string :=
  match n with
  | Element _ props children => flat_map prop_src props ++ flat_map node_urls children
  | Text _ => []
  end.

Fixpoint node_texts (n : ReactNode) : list string :=
  match n with
  | Element _ _ children => flat_map node_texts children
  | Text s => [s]
  end.

(** A simple deriver to run the rules on concrete input.  It is not the
    library: the URL names project, dataset and asset reference and carries
    the requested width and height as the [w] and [h] parameters, and a
    source without an asset reference has no URL, where the library
    throws (see [sanity_url]). *)
Definition decimal (n : Z) : string := NilZero.string_of_int (Z.to_int n).

Definition cdn_params (b : ImageUrlBuilder) : list (option string) :=
  match width b with Some w => [Some ("w=" ++ decimal w)%string] | None => [] end
  ++ match height b with Some h => [Some ("h=" ++ decimal h)%string] | None => [] end.

Definition cdn_url (b : ImageUrlBuilder) : Completion (option string) :=
  match source b with
  | Some {| asset := Some r |} =>
      Normal (Some ("https://cdn.sanity.io/images/" ++ projectId b ++ "/" ++ dataset b
                    ++ "/" ++ _ref r
                    ++ match cdn_params b with
                       | [] => ""
                       | ps => "?" ++ join "&" ps
                       end)%string)
  | _ => Normal None
  end.

(** *** The URL of @sanity/image-url for a width-only request *)

(** [String.prototype.split] on a one-character separator. *)
Fixpoint split_on (sep : ascii) (s : string) : list string :=
  match s with
  | EmptyString => [EmptyString]
  | String c s' =>
      if Ascii.eqb c sep then EmptyString :: split_on sep s'
      else match split_on sep s' with
           | h :: t => String c h :: t
           | [] => [String c EmptyString]
           end
  end.

(** A decimal numeral as a number; anything else is not one. *)
Fixpoint digits (acc : N) (s : string) : option N :=
  match s with
  | EmptyString => Some acc
  | String c s' =>
      let n := N_of_ascii c in
      if (48 <=? n)%N && (n <=? 57)%N then digits (acc * 10 + (n - 48))%N s'
      else None
  end.

Definition numeral (s : string) : option N :=
  match s with EmptyString => None | _ => digits 0%N s end.

Record AssetId := {
  asset_id : string;
  asset_width : N;
  asset_height : N;
  asset_format : string }.

(** The error for a reference that cannot be read (the library's message
    goes on with an example of a well-formed one). *)
Definition malformed_ref (ref : string) : JsError :=
  Error ("Malformed asset _ref '" ++ ref ++ "'").

(** Stand-in for [parseAssetId] of @sanity/image-url, which is not among
    the sources: a reference reads [image-<id>-<width>x<height>-<format>],
    the dimensions decimal numerals, and any other reference is refused
    with an exception. *)
Definition parseAssetId (ref : string) : Completion AssetId :=
  match split_on "-" ref with
  | _ :: id :: dimensions :: format :: _ =>
      if (id =? "") || (dimensions =? "") || (format =? "") then Throw (malformed_ref ref)
      else
        match split_on "x" dimensions with
        | w :: h :: _ =>
            match numeral w, numeral h with
            | Some w', Some h' =>
                Normal {| asset_id := id; asset_width := w'; asset_height := h';
                          asset_format := format |}
            | _, _ => Throw (malformed_ref ref)
            end
        | _ => Throw (malformed_ref ref)
        end
  | _ => Throw (malformed_ref ref)
  end.

Definition decimalN (n : N) : string := NilZero.string_of_uint (N.to_uint n).

(** The address of an asset on the image CDN, without parameters. *)
Definition asset_url (b : ImageUrlBuilder) (a : AssetId) : string :=
  ("https://cdn.sanity.io/images/" ++ projectId b ++ "/" ++ dataset b ++ "/"
   ++ asset_id a ++ "-" ++ decimalN (asset_width a) ++ "x" ++ decimalN (asset_height a)
   ++ "." ++ asset_format a)%string.

(** Stand-in for [url()] of @sanity/image-url on a builder whose source is
    an image object: it throws when the source has no asset or the asset
    reference is malformed, and otherwise returns the asset's address with
    the requested width as the [w] parameter.  (With a height as well the
    library adds a crop rectangle, which is not modelled: the [h] parameter
    alone is written.) *)
Definition sanity_url (b : ImageUrlBuilder) : Completion (option string) :=
  match source b with
  | Some {| asset := Some r |} =>
      let* a := parseAssetId (_ref r) in
      Normal (Some (asset_url b a
                    ++ match cdn_params b with
                       | [] => ""
                       | ps => "?" ++ join "&" ps
                       end)%string)
  | _ => Throw (Error "Unable to resolve image URL from source")
  end.

(** [cn] as a join of the class names that are present. *)
Definition cn_join (classes : list (option string)) : string :=
  join " " (filter defined classes).

Module DetailSpec.
Import Detail.

(** Sample blocks. *)
Definition no_image : SanityImage := {| asset := None; alt := None; caption := None |}.

Definition text_block (style : string) (text : string) : TypedObject :=
  {| _type := "block"; style := Some style; children := [text]; img := no_image;
     code := None; filename := None; language := None |}.

Definition image_block (ref : option string) (alt : string) : TypedObject :=
  {| _type := "image"; style := None; children := [];
     img := {| asset := option_map (fun r => {| _ref := r |}) ref;
               alt := Some alt; caption := None |};
     code := None; filename := None; language := None |}.

Definition video_block : TypedObject :=
  {| _type := "video"; style := None; children := []; img := no_image;
     code := None; filename := None; language := None |}.

Definition production : ImageUrlBuilder := imageUrlBuilder "ppql4ntm" "production".

(** Document identifiers are unique within a dataset. *)
Definition unique_ids (ds : Dataset) : Prop := NoDup (map Doc._id ds).

(** A configuration value that is absent or empty. *)
Definition missing (v : option string) : Prop := v = None \/ v = Some "".

(** A dataset with one post in each status, and a request for each. *)
Definition three_statuses : Dataset :=
  [ IndexSpec.post_doc "p1" "hello" "2024-01-01T00:00:00Z" "published";
    IndexSpec.post_doc "p2" "wip" "2024-02-01T00:00:00Z" "draft";
    IndexSpec.post_doc "p3" "old" "2023-02-01T00:00:00Z" "archived" ].

Definition draft_post : Doc.t :=
  IndexSpec.post_doc "p2" "wip" "2024-02-01T00:00:00Z" "draft".

Definition request (slug : string) : PostPageProps := {| params_slug := slug |}.

(** A published post with an excerpt and SEO data that overrides the
    title only. *)
Definition seo_title_only : SEO :=
  {| metaTitle := Some "Hello | Azka"; metaDescription := None; keywords := None |}.

Definition hello_doc : Doc.t :=
  {| Doc._id := "p1"; Doc._type := "post"; Doc.title := Some "Hello";
     Doc.slug := Some {| current := Some "hello" |};
     Doc.publishedAt := Some "2024-01-01T00:00:00Z"; Doc.status := Some "published";
     Doc.body := Some []; Doc.excerpt := Some "A first post"; Doc.author := None;
     Doc.categories := None; Doc.mainImage := None; Doc.tags := None;
     Doc.seo := Some seo_title_only; Doc.name := None; Doc.image := None |}.

(** Configurations with an identifier left out. *)
Definition no_dataset : ClientConfig.t :=
  {| ClientConfig.projectId := Some "ppql4ntm";
     ClientConfig.dataset := None;
     ClientConfig.apiVersion := Some "2024-01-01";
     ClientConfig.useCdn := false |}.
End DetailSpec.

(** * Start-up: the modules and what they import *)

Module Startup.

(** Stand-in for [createClient] of next-sanity, which is not among the
    sources, as far as start-up goes: it refuses a configuration without a
    project identifier and accepts one without a dataset. *)
Definition createClient (config : ClientConfig.t) : Completion ClientConfig.t :=
  if negb (truthy (ClientConfig.projectId config))
  then Throw (Error "Configuration must contain `projectId`")
  else Normal config.

(** What [src/app/page.tsx] exports. *)
Record IndexModule := {
  index_default : Dataset -> Completion ReactNode }.

Section Load.
Variable url : ImageUrlBuilder -> Completion (option string).
Variable format_date : option string -> Completion string.
Variable cn : list (option string) -> string.

(** Evaluation of [src/app/page.tsx]: it imports the client module and has
    no other top-level statement that can throw. *)
Definition load_index (config : ClientConfig.t) : Completion IndexModule :=
  let* _ := createClient config in
  Normal {| index_default := Index.BlogIndexPage format_date |}.

(** Evaluation of [src/app/blog/[slug]/page.tsx]: it imports the client
    module and then runs its own top-level statements on [client.config()]. *)
Definition load_detail (config : ClientConfig.t) : Completion Detail.PageModule :=
  let* client := createClient config in
  Detail.load url format_date cn client.

(** No page can be served: neither page module loads. *)
Definition fails_at_startup (config : ClientConfig.t) : Prop :=
  (exists e, load_index config = Throw e) /\ (exists e, load_detail config = Throw e).

(** C9 as it is stated, for one configuration. *)
Definition startup_claim (config : ClientConfig.t) : Prop :=
  (DetailSpec.missing (ClientConfig.projectId config)
   \/ DetailSpec.missing (ClientConfig.dataset config) ->
   fails_at_startup config)
  /\ (~ DetailSpec.missing (ClientConfig.projectId config) ->
      ~ DetailSpec.missing (ClientConfig.dataset config) ->
      (exists m, load_index config = Normal m)
      /\ (exists m, load_detail config = Normal m)).
End Load.
End Startup.

(** * Vocabulary for the pages as a whole *)

Module PageSpec.

(** Props and children of an element. *)
Definition node_props (n : ReactNode) : list (string * PropValue) :=
  match n with Element _ props _ => props | Text _ => [] end.

Definition node_children (n : ReactNode) : list ReactNode :=
  match n with Element _ _ children => children | Text _ => [] end.

Fixpoint prop_string (k : string) (props : list (string * PropValue)) : option string :=
  match props with
  | [] => None
  | (k', v) :: props' =>
      if k' =? k then match v with PStr s => Some s | _ => None end
      else prop_string k props'
  end.

(** The [key] of a card and the [href] of the link it wraps. *)
Definition card_key (card : ReactNode) : option string :=
  prop_string "key" (node_props card).

Definition card_href (card : ReactNode) : option string :=
  match node_children card with
  | link :: _ => prop_string "href" (node_props link)
  | [] => None
  end.

(** The references of a document lead somewhere: it has an author
    reference that resolves, and each of its category references resolves. *)
Definition refs_resolve (ds : Dataset) (d : Doc.t) : Prop :=
  (exists r a, Doc.author d = Some r /\ deref ds r = Some a)
  /\ (forall rs r, Doc.categories d = Some rs -> In r rs -> exists c, deref ds r = Some c).

(** What the card of an index entry reads without a guard. *)
Definition card_ready (format_date : option string -> Completion string)
  (p : Index.Post.t) : Prop :=
  Index.Post.slug p <> None
  /\ (exists s, format_date (Index.Post.publishedAt p) = Normal s)
  /\ Index.Post.author p <> None
  /\ (forall cs, Index.Post.categories p = Some cs -> ~ In None cs).

(** The builder the detail page asks the URL of the main image of. *)
Definition hero_request (builder : ImageUrlBuilder) (i : SanityImage) : ImageUrlBuilder :=
  with_height 675 (with_width 1200 (Detail.urlFor builder i)).

(** An author, a category, and posts that refer to them. *)
Definition person_doc (id name : string) : Doc.t :=
  {| Doc._id := id; Doc._type := "author"; Doc.title := None; Doc.slug := None;
     Doc.publishedAt := None; Doc.status := None; Doc.body := None;
     Doc.excerpt := None; Doc.author := None; Doc.categories := None;
     Doc.mainImage := None; Doc.tags := None; Doc.seo := None;
     Doc.name := Some name; Doc.image := None |}.

Definition category_doc (id title : string) : Doc.t :=
  {| Doc._id := id; Doc._type := "category"; Doc.title := Some title; Doc.slug := None;
     Doc.publishedAt := None; Doc.status := None; Doc.body := None;
     Doc.excerpt := None; Doc.author := None; Doc.categories := None;
     Doc.mainImage := None; Doc.tags := None; Doc.seo := None;
     Doc.name := None; Doc.image := None |}.

Definition authored_doc (id slug : string) (at_ : option string) (status : string)
  (author : option string) (categories : list string) : Doc.t :=
  {| Doc._id := id; Doc._type := "post"; Doc.title := Some id;
     Doc.slug := Some {| current := Some slug |};
     Doc.publishedAt := at_; Doc.status := Some status;
     Doc.body := Some []; Doc.excerpt := None;
     Doc.author := option_map (fun r => {| _ref := r |}) author;
     Doc.categories := Some (map (fun r => {| _ref := r |}) categories);
     Doc.mainImage := None; Doc.tags := None; Doc.seo := None;
     Doc.name := None; Doc.image := None |}.

Definition hello_post : Doc.t :=
  authored_doc "p1" "hello" (Some "2024-01-01T00:00:00Z") "published" (Some "azka") ["c1"].

Definition undated_post : Doc.t :=
  authored_doc "p2" "undated" None "published" (Some "azka") [].

Definition orphan_post : Doc.t :=
  authored_doc "p3" "orphan" (Some "2024-03-01T00:00:00Z") "published" (Some "nobody") [].

Definition cover_post : Doc.t :=
  {| Doc._id := "p4"; Doc._type := "post"; Doc.title := Some "Cover";
     Doc.slug := Some {| current := Some "cover" |};
     Doc.publishedAt := Some "2024-02-01T00:00:00Z"; Doc.status := Some "published";
     Doc.body := Some []; Doc.excerpt := None;
     Doc.author := Some {| _ref := "azka" |}; Doc.categories := None;
     Doc.mainImage := Some {| asset := Some {| _ref := "image-abc-1200x800-png" |};
                              alt := None; caption := None |};
     Doc.tags := None; Doc.seo := None; Doc.name := None; Doc.image := None |}.

Definition asset_doc : Doc.t := person_doc "image-abc-1200x800-png" "asset".

Definition cover_blog : Dataset := [ person_doc "azka" "Azka"; asset_doc; cover_post ].

Definition small_blog : Dataset :=
  [ person_doc "azka" "Azka"; category_doc "c1" "Notes"; hello_post; undated_post ].

Definition broken_blog : Dataset :=
  [ person_doc "azka" "Azka"; orphan_post ].

(** Thirteen published posts, one per day. *)
Definition day_post (n : nat) : Doc.t :=
  IndexSpec.post_doc (decimal (Z.of_nat n)) ("day-" ++ decimal (Z.of_nat n))%string
    ("2024-01-" ++ decimal (Z.of_nat (10 + n)) ++ "T00:00:00Z")%string "published".

Definition thirteen_days : Dataset := map day_post (seq 0 13).
End PageSpec.

(** * Properties *)

(** ** The order on sort keys *)

Lemma ascii_compare_refl (a : ascii) : Ascii.compare a a = Eq.
Proof. unfold Ascii.compare. apply N.compare_refl. Qed.

Lemma ascii_compare_lt_trans (a b c : ascii) :
  Ascii.compare a b = Lt -> Ascii.compare b c = Lt -> Ascii.compare a c = Lt.
Proof.
  unfold Ascii.compare. rewrite !N.compare_lt_iff. apply N.lt_trans.
Qed.

Lemma string_leb_trans (a b c : string) :
  String.leb a b = true -> String.leb b c = true -> String.leb a c = true.
Proof.
  unfold String.leb. revert b c.
  induction a as [|x a IH]; intros [|y b] [|z c]; simpl; try easy.
  destruct (Ascii.compare x y) eqn:Exy; try easy;
    destruct (Ascii.compare y z) eqn:Eyz; try easy.
  - apply Ascii.compare_eq_iff in Exy, Eyz. subst.
    rewrite ascii_compare_refl. apply IH.
  - apply Ascii.compare_eq_iff in Exy. subst. now rewrite Eyz.
  - apply Ascii.compare_eq_iff in Eyz. subst. now rewrite Exy.
  - now rewrite (ascii_compare_lt_trans _ _ _ Exy Eyz).
Qed.

Lemma key_leb_trans (a b c : option string) :
  key_leb a b = true -> key_leb b c = true -> key_leb a c = true.
Proof.
  destruct a as [a|], b as [b|], c as [c|]; simpl; try easy.
  apply string_leb_trans.
Qed.

Lemma PublishedAtDesc_trans : Transitive (fun a b => is_true (PublishedAtDesc.leb a b)).
Proof.
  intros a b c Hab Hbc. unfold is_true, PublishedAtDesc.leb in *.
  eapply key_leb_trans; eassumption.
Qed.

(** ** Sorted lists under prefixes, maps and side conditions *)

Section SortedLists.
Context {A B : Type}.

Lemma StronglySorted_firstn (R : A -> A -> Prop) (n : nat) (l : list A) :
  StronglySorted R l -> StronglySorted R (firstn n l).
Proof.
  intros H. revert n. induction H as [|a l Hl IH Ha]; intros [|n]; simpl; try constructor.
  - apply IH.
  - rewrite Forall_forall in *. intros x Hx. apply Ha.
    eapply (In_nth_error _) in Hx. destruct Hx as [i Hi].
    rewrite <- (firstn_skipn n l). apply in_or_app. left.
    eapply nth_error_In; eassumption.
Qed.

Lemma StronglySorted_restrict (R : A -> A -> Prop) (P : A -> Prop) (l : list A) :
  StronglySorted R l -> Forall P l ->
  StronglySorted (fun a b => P a /\ P b /\ R a b) l.
Proof.
  induction 1 as [|a l Hl IH Ha]; intros HP; constructor.
  - apply IH. now inversion HP.
  - inversion HP as [|? ? Pa Pl]; subst.
    rewrite Forall_forall in *. intros x Hx. auto.
Qed.

Lemma StronglySorted_map (f : A -> B) (R : B -> B -> Prop) (l : list A) :
  StronglySorted (fun a b => R (f a) (f b)) l -> StronglySorted R (map f l).
Proof.
  induction 1 as [|a l Hl IH Ha]; simpl; constructor; auto.
  rewrite Forall_forall in *. intros y Hy.
  apply in_map_iff in Hy. destruct Hy as [x [<- Hx]]. auto.
Qed.

Lemma StronglySorted_weaken (R R' : A -> A -> Prop) (l : list A) :
  (forall a b, R a b -> R' a b) -> StronglySorted R l -> StronglySorted R' l.
Proof.
  intros HR. induction 1 as [|a l Hl IH Ha]; constructor; auto.
  eapply Forall_impl; [|exact Ha]. auto.
Qed.
End SortedLists.

(** ** The index query *)

Module IndexFacts.
Import Index IndexSpec.

Lemma POSTS_QUERY_filter_eligible (d : Doc.t) :
  POSTS_QUERY_filter d = true <-> eligible d.
Proof.
  unfold POSTS_QUERY_filter, eligible, slug_current, attr_eq, defined.
  rewrite !andb_true_iff, String.eqb_eq. split.
  - intros [[[Ht Hs] Hp] Hst]. repeat split; trivial.
    + destruct (Doc.status d) as [s|]; try discriminate.
      apply String.eqb_eq in Hst. now subst.
    + destruct (Doc.slug d) as [s|]; try discriminate.
      destruct (current s) as [c|] eqn:Ec; try discriminate. eauto.
    + destruct (Doc.publishedAt d) as [t|]; try discriminate. eauto.
  - intros (Ht & Hst & (s & c & Hs & Hc) & (t & Hp)).
    rewrite Hst, Hs, Hc, Hp. auto using String.eqb_refl.
Qed.

Lemma POSTS_QUERY_matches_incl (ds : Dataset) (d : Doc.t) :
  In d (POSTS_QUERY_matches ds) -> In d ds /\ POSTS_QUERY_filter d = true.
Proof.
  unfold POSTS_QUERY_matches. intros H.
  assert (Hs : In d (OrderPublishedAtDesc.sort (filter POSTS_QUERY_filter ds))).
  { rewrite <- (firstn_skipn 12). apply in_or_app. now left. }
  apply (Permutation_in _ (Permutation_sym (OrderPublishedAtDesc.Permuted_sort _))) in Hs.
  now apply filter_In in Hs.
Qed.

Lemma POSTS_QUERY_matches_sorted (ds : Dataset) :
  StronglySorted
    (fun a b => POSTS_QUERY_filter a = true /\ POSTS_QUERY_filter b = true
                /\ is_true (PublishedAtDesc.leb a b))
    (POSTS_QUERY_matches ds).
Proof.
  apply StronglySorted_restrict.
  - apply StronglySorted_firstn.
    apply OrderPublishedAtDesc.StronglySorted_sort, PublishedAtDesc_trans.
  - apply Forall_forall. intros d Hd. now apply POSTS_QUERY_matches_incl in Hd.
Qed.

(** C1, as stated: on [same_day] the result is not strictly descending. *)
Lemma POSTS_QUERY_not_strictly_descending : ~ index_query_spec newer same_day.
Proof.
  intros (_ & _ & H). vm_compute in H.
  inversion H as [|? ? _ Hall]; subst.
  inversion Hall as [|? ? (x & y & Hx & Hy & Hlt) _]; subst.
  injection Hx as <-. injection Hy as <-. discriminate Hlt.
Qed.

(** C1, amended: for every dataset the index query returns at most 12
    entries, each the projection of a stored post with status published,
    a defined slug and a defined publication timestamp, and every entry
    has a timestamp no earlier than those of the entries after it. *)
Theorem POSTS_QUERY_spec (ds : Dataset) : index_query_spec not_older ds.
Proof.
  unfold index_query_spec, POSTS_QUERY. repeat split.
  - rewrite length_map. unfold POSTS_QUERY_matches. apply firstn_le_length.
  - intros p Hp. apply in_map_iff in Hp. destruct Hp as [d [<- Hd]].
    apply POSTS_QUERY_matches_incl in Hd. destruct Hd as [Hin Hf].
    exists d. rewrite <- POSTS_QUERY_filter_eligible. auto.
  - apply StronglySorted_map.
    eapply StronglySorted_weaken; [|apply POSTS_QUERY_matches_sorted].
    intros a b (Ha & Hb & Hab).
    apply POSTS_QUERY_filter_eligible in Ha, Hb.
    destruct Ha as (_ & _ & _ & x & Hx), Hb as (_ & _ & _ & y & Hy).
    exists x, y. simpl. repeat split; trivial.
    unfold is_true, PublishedAtDesc.leb in Hab. now rewrite Hx, Hy in Hab.
Qed.
End IndexFacts.

(** ** The index page *)

Lemma mapM_cons_inv {A B} (f : A -> Completion B) (a : A) (l : list A) (bs : list B) :
  mapM f (a :: l) = Normal bs -> exists b bs', bs = b :: bs'.
Proof.
  simpl. destruct (f a) as [b|]; simpl; [|discriminate].
  destruct (mapM f l) as [bs'|]; simpl; [|discriminate].
  intros H. injection H as <-. eauto.
Qed.

Module IndexPageFacts.
Import Index IndexSpec.

Lemma POSTS_QUERY_none_eligible (ds : Dataset) :
  (forall d, In d ds -> POSTS_QUERY_filter d = false) -> POSTS_QUERY ds = [].
Proof.
  intros H. unfold POSTS_QUERY, POSTS_QUERY_matches.
  replace (filter POSTS_QUERY_filter ds) with (@nil Doc.t); [reflexivity|].
  symmetry. induction ds as [|d ds IH]; simpl; trivial.
  rewrite (H d (or_introl eq_refl)). apply IH. intros d' Hd'. apply H. now right.
Qed.

Section Page.
Variable format_date : option string -> Completion string.

Abbreviation BlogIndexPage_of := (BlogIndexPage_of format_date).
Abbreviation BlogIndexPage := (BlogIndexPage format_date).
Abbreviation post_card := (post_card format_date).

Lemma BlogIndexPage_of_cons (p : Post.t) (ps : list Post.t) :
  BlogIndexPage_of (Some (p :: ps))
  = (let* cards := mapM post_card (p :: ps) in Normal (posts_view cards)).
Proof. reflexivity. Qed.

(** C8: an index result that is absent or empty, and so a dataset in
    which the query selects nothing, renders the view with the text
    "No posts found."; a non-empty result never renders that view but
    a grid with at least one card; no result renders an empty grid. *)
Theorem empty_result_view :
  (forall posts, posts = None \/ posts = Some [] ->
                 BlogIndexPage_of posts = Normal no_posts_view)
  /\ (forall ds, (forall d, In d ds -> POSTS_QUERY_filter d = false) ->
                 BlogIndexPage ds = Normal no_posts_view)
  /\ In "No posts found." (node_texts no_posts_view)
  /\ (forall p ps view,
        BlogIndexPage_of (Some (p :: ps)) = Normal view ->
        view <> no_posts_view
        /\ exists card cards, view = posts_view (card :: cards))
  /\ (forall posts, BlogIndexPage_of posts <> Normal (posts_view [])).
Proof.
  assert (Hcons : forall p ps view,
             BlogIndexPage_of (Some (p :: ps)) = Normal view ->
             exists card cards, view = posts_view (card :: cards)).
  { intros p ps view. rewrite BlogIndexPage_of_cons.
    destruct (mapM post_card (p :: ps)) as [cards|] eqn:E; [|discriminate].
    cbn [bind]. intros H. injection H as <-.
    apply mapM_cons_inv in E. destruct E as (card & cards' & ->). eauto. }
  repeat match goal with |- _ /\ _ => split end.
  - intros posts [-> | ->]; reflexivity.
  - intros ds H. unfold Index.BlogIndexPage.
    now rewrite (POSTS_QUERY_none_eligible ds H).
  - simpl. auto.
  - intros p ps view H. split; [|eauto].
    apply Hcons in H. destruct H as (card & cards & ->). discriminate.
  - intros [[|p ps]|]; try discriminate.
    intros H. apply Hcons in H. destruct H as (card & cards & H). discriminate.
Qed.

End Page.

Lemma empty_result_view_witness :
  Index.BlogIndexPage sample_format_date drafts_only = Normal no_posts_view
  /\ Index.BlogIndexPage_of sample_format_date None = Normal no_posts_view.
Proof.
  destruct (empty_result_view sample_format_date) as (H1 & H2 & _).
  split.
  - apply H2. intros d Hd. simpl in Hd.
    destruct Hd as [<- | [<- | []]]; reflexivity.
  - apply H1. left. reflexivity.
Defined.
End IndexPageFacts.

(** ** The detail query *)

Module DetailFacts.
Import Detail DetailSpec.

Lemma POST_QUERY_filter_published (slug : string) (d : Doc.t) :
  POST_QUERY_filter slug d = true ->
  Doc._type d = "post" /\ slug_current d = Some slug /\ Doc.status d = Some "published".
Proof.
  unfold POST_QUERY_filter, attr_eq. rewrite !andb_true_iff, String.eqb_eq.
  intros [[Ht Hs] Hst]. repeat split; trivial.
  - destruct (slug_current d); try discriminate. apply String.eqb_eq in Hs. now subst.
  - destruct (Doc.status d); try discriminate. apply String.eqb_eq in Hst. now subst.
Qed.

Lemma POST_QUERY_match_published (ds : Dataset) (slug : string) (d : Doc.t) :
  POST_QUERY_match ds slug = Some d -> In d ds /\ Doc.status d = Some "published".
Proof.
  unfold POST_QUERY_match. intros H. apply find_some in H. destruct H as [Hin Hf].
  split; trivial. now apply POST_QUERY_filter_published in Hf.
Qed.

Lemma POST_QUERY_match_none (ds : Dataset) (slug : string) :
  (forall d, In d ds -> POST_QUERY_filter slug d = false) ->
  POST_QUERY_match ds slug = None.
Proof.
  unfold POST_QUERY_match. intros H.
  destruct (find (POST_QUERY_filter slug) ds) as [d|] eqn:E; trivial.
  apply find_some in E. destruct E as [Hin Hf]. rewrite (H d Hin) in Hf. discriminate.
Qed.

Lemma unique_ids_inj (ds : Dataset) (a b : Doc.t) :
  unique_ids ds -> In a ds -> In b ds -> Doc._id a = Doc._id b -> a = b.
Proof.
  unfold unique_ids. induction ds as [|d ds IH]; simpl; [easy|].
  intros Hnd [Ha|Ha] [Hb|Hb] E; inversion Hnd as [|? ? Hnotin Hnd']; subst.
  - reflexivity.
  - exfalso. apply Hnotin. rewrite E. now apply in_map.
  - exfalso. apply Hnotin. rewrite <- E. now apply in_map.
  - now apply IH.
Qed.

(** C2: a post whose status is draft or archived is not among the
    documents the index query selects and is not the document the detail
    query selects, whatever the requested slug; when identifiers are
    unique, no entry of the index result and no detail result carries the
    identifier of such a stored post. *)
Theorem unpublished_never_returned (ds : Dataset) (p : Doc.t) (params : PostPageProps) :
  Doc.status p = Some "draft" \/ Doc.status p = Some "archived" ->
  ~ In p (Index.POSTS_QUERY_matches ds)
  /\ POST_QUERY_match ds (params_slug params) <> Some p
  /\ (unique_ids ds -> In p ds ->
      (forall r, In r (Index.POSTS_QUERY ds) -> Index.Post._id r <> Doc._id p)
      /\ (forall r, POST_QUERY ds params = Some r -> Post._id r <> Doc._id p)).
Proof.
  intros Hst.
  assert (Hnp : Doc.status p <> Some "published")
    by (destruct Hst as [-> | ->]; discriminate).
  assert (Hidx : forall d, In d (Index.POSTS_QUERY_matches ds) ->
                           In d ds /\ Doc.status d = Some "published").
  { intros d Hd. apply IndexFacts.POSTS_QUERY_matches_incl in Hd.
    destruct Hd as [Hin Hf]. apply IndexFacts.POSTS_QUERY_filter_eligible in Hf.
    split; trivial. apply Hf. }
  split; [|split].
  - intros Hin. now apply Hidx in Hin.
  - intros Hm. now apply POST_QUERY_match_published in Hm.
  - intros Hu Hp. split.
    + intros r Hr Eid. unfold Index.POSTS_QUERY in Hr.
      apply in_map_iff in Hr. destruct Hr as [d [<- Hd]]. simpl in Eid.
      apply Hidx in Hd. destruct Hd as [Hin Hpub].
      apply (unique_ids_inj ds d p Hu Hin Hp) in Eid. now subst.
    + intros r Hr Eid. unfold POST_QUERY in Hr.
      destruct (POST_QUERY_match ds (params_slug params)) as [d|] eqn:Hm;
        try discriminate.
      injection Hr as <-. simpl in Eid.
      apply POST_QUERY_match_published in Hm. destruct Hm as [Hin Hpub].
      apply (unique_ids_inj ds d p Hu Hin Hp) in Eid. now subst.
Qed.

Lemma unpublished_never_returned_witness :
  ~ In draft_post (Index.POSTS_QUERY_matches three_statuses)
  /\ POST_QUERY_match three_statuses (params_slug (request "wip")) <> Some draft_post
  /\ (forall r, In r (Index.POSTS_QUERY three_statuses) ->
                Index.Post._id r <> Doc._id draft_post)
  /\ (forall r, POST_QUERY three_statuses (request "wip") = Some r ->
                Post._id r <> Doc._id draft_post).
Proof.
  destruct (unpublished_never_returned three_statuses draft_post (request "wip"))
    as (H1 & H2 & H3).
  - left. reflexivity.
  - assert (Hu : unique_ids three_statuses).
    { unfold unique_ids. simpl. repeat constructor; simpl; intuition discriminate. }
    assert (Hin : In draft_post three_statuses) by (simpl; auto).
    destruct (H3 Hu Hin) as [H4 H5]. auto.
Defined.

(** ** Page metadata *)

(** C5: for a fetched post, the title is the SEO title when there is one
    and the post title otherwise; the description is the SEO description
    when there is one, otherwise the excerpt when there is one, otherwise
    absent; the keywords are the SEO keywords when there are some and
    absent otherwise. *)
Theorem generateMetadata_fields (ds : Dataset) (params : PostPageProps) (post : Post.t) :
  POST_QUERY ds params = Some post ->
  exists m,
    generateMetadata ds params = Normal m
    /\ (forall t, chain metaTitle (Post.seo post) = Some t -> meta_title m = Some t)
    /\ (chain metaTitle (Post.seo post) = None -> meta_title m = Post.title post)
    /\ (forall d, chain metaDescription (Post.seo post) = Some d ->
                  meta_description m = Some d)
    /\ (chain metaDescription (Post.seo post) = None ->
        forall e, Post.excerpt post = Some e -> meta_description m = Some e)
    /\ (chain metaDescription (Post.seo post) = None -> Post.excerpt post = None ->
        meta_description m = None /\ meta_description m <> Some "")
    /\ (forall k, chain keywords (Post.seo post) = Some k -> meta_keywords m = Some k)
    /\ (chain keywords (Post.seo post) = None -> meta_keywords m = None).
Proof.
  intros Hq. unfold generateMetadata. rewrite Hq. eexists. split; [reflexivity|].
  simpl. unfold nullish.
  repeat match goal with |- _ /\ _ => split end.
  - now intros t ->.
  - now intros ->.
  - now intros d ->.
  - now intros -> e ->.
  - intros -> ->. split; [reflexivity | discriminate].
  - now intros k ->.
  - now intros ->.
Qed.

Lemma generateMetadata_fields_witness :
  generateMetadata [hello_doc] (request "hello")
  = Normal {| meta_title := Some "Hello | Azka";
              meta_description := Some "A first post";
              meta_keywords := None |}.
Proof.
  destruct (generateMetadata_fields [hello_doc] (request "hello")
              (POST_QUERY_projection [hello_doc] hello_doc) eq_refl)
    as (m & Hm & Ht & _ & _ & He & _ & _ & Hk).
  rewrite Hm. destruct m as [t d k]. simpl in *.
  rewrite (Ht _ eq_refl), (He eq_refl _ eq_refl), (Hk eq_refl). reflexivity.
Defined.

(** ** Module initialisation *)

Lemma truthy_false_iff (v : option string) : truthy v = false <-> missing v.
Proof.
  unfold truthy, missing. destruct v as [s|]; split; intros H; auto.
  - right. destruct (String.eqb_spec s ""); [now subst | discriminate].
  - destruct H as [H|H]; [discriminate | injection H as ->; reflexivity].
Qed.

End DetailFacts.

(** ** The Portable Text rules and the renderer *)

Lemma bind_Normal_r {A} (c : Completion A) : (let* a := c in Normal a) = c.
Proof. now destruct c. Qed.

Module RenderFacts.
Import Detail DetailSpec.

Section Rules.
Variable builder : ImageUrlBuilder.
Variable url : ImageUrlBuilder -> Completion (option string).
Variable cn : list (option string) -> string.

Abbreviation PortableText := (PortableText builder url cn).
Abbreviation render_block := (render_block builder url cn).
Abbreviation types_image := (types_image builder url).
Abbreviation image_request := (image_request builder).

Lemma render_block_image (b : TypedObject) :
  _type b = "image" ->
  render_block b
  = (let* fragment := types_image b in
     Normal (match fragment with Some f => [f] | None => [] end)).
Proof. unfold Detail.render_block, components_types. now intros ->. Qed.

Lemma PortableText_app (xs ys : list TypedObject) :
  PortableText (xs ++ ys)
  = (let* a := PortableText xs in let* b := PortableText ys in Normal (a ++ b)).
Proof.
  induction xs as [|x xs IH]; simpl.
  - now rewrite bind_Normal_r.
  - destruct (render_block x) as [f|e]; simpl; trivial.
    rewrite IH. destruct (PortableText xs) as [a|e]; simpl; trivial.
    destruct (PortableText ys) as [b|e]; simpl; trivial.
    now rewrite app_assoc.
Qed.

Lemma types_image_figure (value : TypedObject) (u : string) :
  url (image_request value) = Normal (Some u) -> u <> "" ->
  exists fragment,
    types_image value = Normal (Some fragment) /\ node_urls fragment = [u].
Proof.
  intros Hu Hne. unfold Detail.types_image, Detail.image_request in *. rewrite Hu.
  cbn [bind]. assert (Ht : truthy (Some u) = true).
  { simpl. apply String.eqb_neq in Hne. now rewrite Hne. }
  rewrite Ht. cbn [negb]. eexists. split; [reflexivity|].
  unfold text_child.
  destruct (caption (img value)) as [c|]; simpl; trivial.
  destruct (c =? ""); reflexivity.
Qed.

(** C3, where the code departs from it: the image rule has no handler for
    a deriver that throws.  When [url()] throws for the image of a block,
    as the library does for a malformed or missing asset reference, the
    rule throws the same error and a body that holds the block does not
    render: the block is not omitted. *)
Theorem types_image_throws (value : TypedObject) (e : JsError) :
  url (image_request value) = Throw e ->
  types_image value = Throw e
  /\ (_type value = "image" ->
      forall (before : list TypedObject) (fragments : list ReactNode)
             (after : list TypedObject),
        PortableText before = Normal fragments ->
        PortableText (before ++ value :: after) = Throw e).
Proof.
  intros Hu.
  assert (E : types_image value = Throw e).
  { unfold Detail.types_image, Detail.image_request in *. now rewrite Hu. }
  split; trivial.
  intros Hty before fragments after Hb.
  rewrite PortableText_app, Hb. cbn [bind Detail.PortableText].
  now rewrite (render_block_image _ Hty), E.
Qed.

(** C7: a block whose discriminant has no rendering rule renders as no
    fragment, without an exception, and a body renders as it would
    without that block. *)
Theorem unrecognized_block_skipped (b : TypedObject) :
  recognized b = false ->
  render_block b = Normal []
  /\ forall before after : list TypedObject,
       PortableText (before ++ b :: after) = PortableText (before ++ after).
Proof.
  intros Hr.
  assert (E : render_block b = Normal []).
  { unfold recognized in Hr. unfold Detail.render_block.
    destruct (_type b =? "block") eqn:Eb.
    - unfold components_block. cbn [existsb] in Hr.
      repeat match goal with
             | H : _ || _ = false |- _ => apply orb_false_iff in H; destruct H
             end.
      repeat match goal with
             | H : (block_style b =? _) = false |- _ => rewrite H; clear H
             end.
      reflexivity.
    - unfold components_types. cbn [existsb] in Hr.
      repeat match goal with
             | H : _ || _ = false |- _ => apply orb_false_iff in H; destruct H
             end.
      repeat match goal with
             | H : (_type b =? _) = false |- _ => rewrite H; clear H
             end.
      reflexivity. }
  split; trivial.
  intros before after. rewrite !PortableText_app. simpl. rewrite E. simpl.
  now rewrite bind_Normal_r.
Qed.

End Rules.

Lemma types_image_throws_witness :
  exists e,
    sanity_url (image_request production (image_block (Some "broken") "x")) = Throw e
    /\ PortableText production sanity_url cn_join
         ([text_block "h1" "Intro"] ++ image_block (Some "broken") "x" :: [])
       = Throw e.
Proof.
  exists (malformed_ref "broken"). split; [reflexivity|].
  destruct (types_image_throws production sanity_url cn_join
              (image_block (Some "broken") "x") (malformed_ref "broken") eq_refl)
    as [_ H].
  apply (H eq_refl [text_block "h1" "Intro"]
           [Element "h1" [className "text-3xl font-bold mt-8 mb-4"] [Text "Intro"]]).
  reflexivity.
Defined.

(** X14: with the URL layout of the library, for an image block whose
    asset reference reads [image-<id>-<width>x<height>-<format>] and a
    builder without a preset height, the figure's only image URL is the
    asset's address on the CDN followed by [?w=800]. *)
Theorem types_image_library_url (builder : ImageUrlBuilder)
  (value : TypedObject) (r : SanityReference) (a : AssetId) :
  height builder = None ->
  asset (img value) = Some r ->
  parseAssetId (_ref r) = Normal a ->
  exists fragment,
    types_image builder sanity_url value = Normal (Some fragment)
    /\ node_urls fragment = [(asset_url builder a ++ "?w=800")%string].
Proof.
  intros Hh Ha Hp.
  apply types_image_figure; [|discriminate].
  unfold Detail.image_request, sanity_url, cdn_params. cbn.
  destruct (img value) as [as_ al cap]. cbn in Ha. rewrite Ha, Hp, Hh. reflexivity.
Qed.

Lemma types_image_library_url_witness :
  PortableText production sanity_url cn_join
    [image_block (Some "image-abc-1200x800-png") "x"]
  = Normal
      [Element "figure" [className "my-8"]
         [Element "Image"
            [("src", PStr "https://cdn.sanity.io/images/ppql4ntm/production/abc-1200x800.png?w=800");
             ("alt", PStr "x"); ("width", PNum 800); ("height", PNum 450);
             className "rounded-lg"] []]]
  /\ exists fragment,
       types_image production sanity_url (image_block (Some "image-abc-1200x800-png") "x")
       = Normal (Some fragment)
       /\ node_urls fragment
          = ["https://cdn.sanity.io/images/ppql4ntm/production/abc-1200x800.png?w=800"].
Proof.
  split; [reflexivity|].
  apply (types_image_library_url production
           (image_block (Some "image-abc-1200x800-png") "x")
           {| _ref := "image-abc-1200x800-png" |}
           {| asset_id := "abc"; asset_width := 1200; asset_height := 800;
              asset_format := "png" |});
    reflexivity.
Defined.

Lemma unrecognized_block_skipped_witness :
  PortableText production cdn_url cn_join
    [text_block "h1" "Intro"; video_block; text_block "h7" "Deep"; text_block "normal" "Hi"]
  = Normal [ Element "h1" [className "text-3xl font-bold mt-8 mb-4"] [Text "Intro"];
             Element "p" [] [Text "Hi"] ].
Proof.
  destruct (unrecognized_block_skipped production cdn_url cn_join video_block eq_refl)
    as [_ Hv].
  destruct (unrecognized_block_skipped production cdn_url cn_join
              (text_block "h7" "Deep") eq_refl) as [_ Hh].
  pose proof (Hv [text_block "h1" "Intro"]
                 [text_block "h7" "Deep"; text_block "normal" "Hi"]) as Ev.
  pose proof (Hh [text_block "h1" "Intro"] [text_block "normal" "Hi"]) as Eh.
  cbn [app] in Ev, Eh. rewrite Ev, Eh. reflexivity.
Defined.

End RenderFacts.

(** * Further properties of the queries and the pages *)

Lemma StronglySorted_app_inv {A} (R : A -> A -> Prop) (l1 l2 : list A) :
  StronglySorted R (l1 ++ l2) -> forall x y, In x l1 -> In y l2 -> R x y.
Proof.
  induction l1 as [|a l1 IH]; simpl; intros H x y Hx Hy; [easy|].
  inversion H as [|? ? Hs Hall]; subst. destruct Hx as [<- | Hx].
  - rewrite Forall_forall in Hall. apply Hall, in_or_app. now right.
  - now apply IH.
Qed.

Module QueryFacts.
Import Index IndexSpec PageSpec.

Lemma sort_incl (l : list Doc.t) (d : Doc.t) :
  In d (OrderPublishedAtDesc.sort l) <-> In d l.
Proof.
  split; apply Permutation_in;
    [apply Permutation_sym|]; apply OrderPublishedAtDesc.Permuted_sort.
Qed.

(** X1: the index query returns exactly 12 entries when more than 12
    documents pass its filter, and as many entries as pass it otherwise. *)
Theorem POSTS_QUERY_length (ds : Dataset) :
  length (POSTS_QUERY ds) = Nat.min 12 (length (filter POSTS_QUERY_filter ds)).
Proof.
  unfold POSTS_QUERY, POSTS_QUERY_matches.
  rewrite length_map, length_firstn. f_equal.
  symmetry. apply Permutation_length, OrderPublishedAtDesc.Permuted_sort.
Qed.

(** X2: when at most 12 documents pass the filter, the slice drops none of
    them: the selected documents are a rearrangement of those that pass,
    and every stored post that is published with slug and timestamp has its
    entry in the result. *)
Theorem POSTS_QUERY_keeps_all_when_few (ds : Dataset) :
  length (filter POSTS_QUERY_filter ds) <= 12 ->
  Permutation (filter POSTS_QUERY_filter ds) (POSTS_QUERY_matches ds)
  /\ forall d, In d ds -> eligible d -> In (POSTS_QUERY_projection ds d) (POSTS_QUERY ds).
Proof.
  intros Hlen.
  assert (E : POSTS_QUERY_matches ds
              = OrderPublishedAtDesc.sort (filter POSTS_QUERY_filter ds)).
  { unfold POSTS_QUERY_matches. apply firstn_all2.
    now rewrite <- (Permutation_length (OrderPublishedAtDesc.Permuted_sort _)). }
  split.
  - rewrite E. apply OrderPublishedAtDesc.Permuted_sort.
  - intros d Hin He. unfold POSTS_QUERY. apply in_map. rewrite E.
    apply sort_incl, filter_In. split; trivial.
    now apply IndexFacts.POSTS_QUERY_filter_eligible.
Qed.

Lemma POSTS_QUERY_keeps_all_when_few_witness :
  In (POSTS_QUERY_projection small_blog hello_post) (POSTS_QUERY small_blog).
Proof.
  destruct (POSTS_QUERY_keeps_all_when_few small_blog) as [_ H].
  - simpl. repeat constructor.
  - apply H.
    + simpl. auto.
    + apply IndexFacts.POSTS_QUERY_filter_eligible. reflexivity.
Defined.

(** X3: the slice keeps the newest: a stored document that passes the
    filter but is not selected has a timestamp no later than that of every
    selected document. *)
Theorem POSTS_QUERY_newest_first (ds : Dataset) (d m : Doc.t) :
  In d ds -> POSTS_QUERY_filter d = true ->
  ~ In d (POSTS_QUERY_matches ds) ->
  In m (POSTS_QUERY_matches ds) ->
  exists x y, Doc.publishedAt d = Some x /\ Doc.publishedAt m = Some y
              /\ String.leb x y = true.
Proof.
  intros Hin Hf Hout Hm. unfold POSTS_QUERY_matches in *.
  set (sorted := OrderPublishedAtDesc.sort (filter POSTS_QUERY_filter ds)) in *.
  assert (Hd : In d (skipn 12 sorted)).
  { assert (H : In d sorted) by (apply sort_incl, filter_In; auto).
    rewrite <- (firstn_skipn 12 sorted) in H. apply in_app_or in H. tauto. }
  assert (Hs : StronglySorted (fun a b => is_true (PublishedAtDesc.leb a b))
                 (firstn 12 sorted ++ skipn 12 sorted)).
  { rewrite firstn_skipn.
    apply OrderPublishedAtDesc.StronglySorted_sort, PublishedAtDesc_trans. }
  pose proof (StronglySorted_app_inv _ _ _ Hs m d Hm Hd) as Hle.
  assert (Hmf : POSTS_QUERY_filter m = true).
  { apply (IndexFacts.POSTS_QUERY_matches_incl ds m Hm). }
  apply IndexFacts.POSTS_QUERY_filter_eligible in Hf, Hmf.
  destruct Hf as (_ & _ & _ & x & Hx), Hmf as (_ & _ & _ & y & Hy).
  exists x, y. repeat split; trivial.
  unfold is_true, PublishedAtDesc.leb in Hle. now rewrite Hx, Hy in Hle.
Qed.

Lemma POSTS_QUERY_newest_first_witness :
  exists x y, Doc.publishedAt (day_post 0) = Some x
              /\ Doc.publishedAt (day_post 7) = Some y
              /\ String.leb x y = true.
Proof.
  apply (POSTS_QUERY_newest_first thirteen_days (day_post 0) (day_post 7)).
  - vm_compute. auto.
  - reflexivity.
  - vm_compute. intuition discriminate.
  - vm_compute. auto 20.
Defined.

(** X4: documents that do not pass the filter (drafts, archived posts,
    authors, posts without slug or timestamp) have no effect on which
    documents are selected or on their order. *)
Theorem POSTS_QUERY_ignores_ineligible (before after : Dataset) (d : Doc.t) :
  POSTS_QUERY_filter d = false ->
  POSTS_QUERY_matches (before ++ d :: after) = POSTS_QUERY_matches (before ++ after).
Proof.
  intros Hf. unfold POSTS_QUERY_matches.
  rewrite !filter_app. simpl. now rewrite Hf.
Qed.

Lemma POSTS_QUERY_ignores_ineligible_witness :
  POSTS_QUERY_matches ([hello_post] ++ undated_post :: [orphan_post])
  = POSTS_QUERY_matches ([hello_post] ++ [orphan_post]).
Proof.
  apply POSTS_QUERY_ignores_ineligible. reflexivity.
Defined.
End QueryFacts.

(** ** Loops over callbacks that may throw *)

Lemma mapM_map_Forall2 {A B C} (g : A -> B) (f : B -> Completion C)
  (l : list A) (cs : list C) :
  mapM f (map g l) = Normal cs -> Forall2 (fun a c => f (g a) = Normal c) l cs.
Proof.
  revert cs. induction l as [|a l IH]; simpl; intros cs H.
  - injection H as <-. constructor.
  - destruct (f (g a)) as [c|] eqn:Ea; simpl in H; [|discriminate].
    destruct (mapM f (map g l)) as [cs'|]; simpl in H; [|discriminate].
    injection H as <-. constructor; auto.
Qed.

Lemma mapM_Normal_iff {A B} (f : A -> Completion B) (l : list A) :
  (exists bs, mapM f l = Normal bs) <-> Forall (fun a => exists b, f a = Normal b) l.
Proof.
  induction l as [|a l IH]; simpl.
  - split; [constructor | eauto].
  - split.
    + intros [bs H]. destruct (f a) as [b|] eqn:Ea; simpl in H; [|discriminate].
      destruct (mapM f l) as [bs'|]; simpl in H; [|discriminate].
      constructor; [eauto | apply IH; eauto].
    + intros H. inversion H as [|? ? [b Hb] Hl]; subst.
      apply IH in Hl. destruct Hl as [bs Hbs]. rewrite Hb, Hbs. simpl. eauto.
Qed.

Lemma Forall2_with_Forall {A B} (P : A -> Prop) (R : A -> B -> Prop)
  (l : list A) (l' : list B) :
  Forall P l -> Forall2 R l l' -> Forall2 (fun a b => P a /\ R a b) l l'.
Proof.
  intros HP HR. induction HR; constructor; inversion HP; subst; auto.
Qed.

Module IndexCards.
Import Index IndexSpec PageSpec.

Section Page.
Variable format_date : option string -> Completion string.

Abbreviation BlogIndexPage_of := (BlogIndexPage_of format_date).
Abbreviation BlogIndexPage := (BlogIndexPage format_date).
Abbreviation post_card := (post_card format_date).

Lemma categories_fragment_Normal_iff (cs : option (list (option Category))) :
  (exists f, categories_fragment cs = Normal f)
  <-> (forall cs', cs = Some cs' -> ~ In None cs').
Proof.
  destruct cs as [[|c cs]|]; cbn [categories_fragment].
  - split; [|eauto]. intros _ cs' E. injection E as <-. auto.
  - pose proof (mapM_Normal_iff category_title (c :: cs)) as M.
    rewrite Forall_forall in M. split.
    + intros [f Hf] cs' E Hin. injection E as <-.
      destruct (mapM category_title (c :: cs)) as [titles|] eqn:Em; [|discriminate].
      destruct (proj1 M (ex_intro _ titles eq_refl) None Hin) as [b Hb]. discriminate.
    + intros H. destruct (proj2 M) as [titles Ht].
      * intros [c'|] Hc'; [simpl; eauto|]. now destruct (H _ eq_refl).
      * rewrite Ht. simpl. eauto.
  - split; [|eauto]. intros _ cs' E. discriminate.
Qed.

Lemma post_card_Normal_iff (p : Post.t) :
  (exists card, post_card p = Normal card) <-> card_ready format_date p.
Proof.
  pose proof (categories_fragment_Normal_iff (Post.categories p)) as C.
  unfold Index.post_card, post_href, author_name, card_ready. split.
  - intros [card H].
    destruct (Post.slug p) as [s|]; [|discriminate]. cbn [bind] in H.
    destruct (format_date (Post.publishedAt p)) as [date|]; [|discriminate].
    cbn [bind] in H.
    destruct (Post.author p) as [a|]; [|discriminate]. cbn [bind] in H.
    destruct (categories_fragment (Post.categories p)) as [f|] eqn:Ec; [|discriminate].
    repeat split; try discriminate; eauto. apply C. eauto.
  - intros (Hs & [date Hd] & Ha & Hc).
    destruct (Post.slug p) as [s|]; [|easy]. rewrite Hd.
    destruct (Post.author p) as [a|]; [|easy].
    apply C in Hc. destruct Hc as [f Hf]. rewrite Hf. simpl. eauto.
Qed.

Lemma post_card_key_href (p : Post.t) (card : ReactNode) :
  post_card p = Normal card ->
  card_key card = Some (Post._id p)
  /\ exists s, Post.slug p = Some s
               /\ card_href card = Some ("/blog/" ++ template (current s))%string.
Proof.
  unfold Index.post_card, post_href. intros H.
  destruct (Post.slug p) as [s|]; [|discriminate]. cbn [bind] in H.
  destruct (format_date (Post.publishedAt p)) as [date|]; [|discriminate].
  cbn [bind] in H.
  destruct (author_name (Post.author p)) as [n|]; [|discriminate]. cbn [bind] in H.
  destruct (categories_fragment (Post.categories p)) as [f|]; [|discriminate].
  cbn [bind] in H. injection H as <-. split; [reflexivity | eauto].
Qed.

(** X5: when the index page renders a non-empty result, it shows one card
    per selected document, in the order of the query and so at most 12;
    each card is keyed by the document's [_id] and links to [/blog/] followed
    by the document's slug. *)
Theorem BlogIndexPage_cards (ds : Dataset) (view : ReactNode) :
  POSTS_QUERY_matches ds <> [] ->
  BlogIndexPage ds = Normal view ->
  exists cards,
    view = posts_view cards
    /\ length cards <= 12
    /\ Forall2 (fun d card =>
                  card_key card = Some (Doc._id d)
                  /\ exists c, slug_current d = Some c
                               /\ card_href card = Some ("/blog/" ++ c)%string)
               (POSTS_QUERY_matches ds) cards.
Proof.
  intros Hne H. unfold Index.BlogIndexPage, POSTS_QUERY in H.
  assert (Hlen : length (POSTS_QUERY_matches ds) <= 12)
    by (unfold POSTS_QUERY_matches; apply firstn_le_length).
  assert (Hel : Forall eligible (POSTS_QUERY_matches ds)).
  { apply Forall_forall. intros d Hd.
    apply IndexFacts.POSTS_QUERY_filter_eligible.
    apply (IndexFacts.POSTS_QUERY_matches_incl ds d Hd). }
  destruct (POSTS_QUERY_matches ds) as [|m ms] eqn:Em; [easy|].
  unfold Index.BlogIndexPage_of in H. cbn [map no_length length Nat.eqb] in H.
  change (POSTS_QUERY_projection ds m :: map (POSTS_QUERY_projection ds) ms)
    with (map (POSTS_QUERY_projection ds) (m :: ms)) in H.
  destruct (mapM post_card (map (POSTS_QUERY_projection ds) (m :: ms)))
    as [cards|] eqn:Ec; [|discriminate].
  cbn [bind] in H. injection H as <-.
  apply mapM_map_Forall2 in Ec. exists cards. split; [reflexivity|].
  split; [now rewrite <- (Forall2_length Ec)|].
  eapply Forall2_impl; [|apply (Forall2_with_Forall _ _ _ _ Hel Ec)].
  intros d card [(_ & _ & (s & c & Hs & Hc) & _) Hcard]. cbv beta in Hcard.
  apply post_card_key_href in Hcard. destruct Hcard as (Hk & s' & Hs' & Hh).
  simpl in Hk, Hs'. split; trivial.
  rewrite Hs in Hs'. injection Hs' as <-.
  exists c. unfold slug_current. rewrite Hs, Hc. rewrite Hc in Hh. auto.
Qed.

(** X6: as long as the date formatter accepts the timestamp of every
    selected document, the index page renders exactly when every selected
    document has an author reference that resolves and only category
    references that resolve; otherwise it throws. *)
Theorem BlogIndexPage_renders_iff (ds : Dataset) :
  (forall d t, In d (POSTS_QUERY_matches ds) -> Doc.publishedAt d = Some t ->
               exists s, format_date (Some t) = Normal s) ->
  (exists view, BlogIndexPage ds = Normal view)
  <-> (forall d, In d (POSTS_QUERY_matches ds) -> refs_resolve ds d).
Proof.
  intros Hfmt.
  assert (Hready : forall d, In d (POSTS_QUERY_matches ds) ->
            (card_ready format_date (POSTS_QUERY_projection ds d) <-> refs_resolve ds d)).
  { intros d Hd.
    pose proof (IndexFacts.POSTS_QUERY_matches_incl ds d Hd) as [_ Hf].
    apply IndexFacts.POSTS_QUERY_filter_eligible in Hf.
    destruct Hf as (_ & _ & (s & c & Hs & _) & t & Ht).
    pose proof (Hfmt d t Hd Ht) as Hdate.
    unfold card_ready, refs_resolve. simpl. rewrite Hs, Ht.
    unfold deref_author, deref_categories. split.
    - intros (_ & _ & Ha & Hc). split.
      + destruct (Doc.author d) as [r|]; [|easy].
        destruct (deref ds r) as [a|] eqn:Er; [eauto | easy].
      + intros rs r Hrs Hr. rewrite Hrs in Hc. simpl in Hc.
        destruct (deref ds r) as [a|] eqn:Er; [eauto|].
        exfalso. apply (Hc _ eq_refl). apply in_map_iff. exists r. now rewrite Er.
    - intros [(r & a & Hr & Ha) Hc]. repeat split; try discriminate; auto.
      + rewrite Hr, Ha. discriminate.
      + intros cs Hcs Hin. destruct (Doc.categories d) as [rs|]; [|discriminate].
        simpl in Hcs. injection Hcs as <-. apply in_map_iff in Hin.
        destruct Hin as (r' & Hr' & Hin). destruct (Hc rs r' eq_refl Hin) as [c' Hc'].
        rewrite Hc' in Hr'. discriminate. }
  unfold Index.BlogIndexPage, POSTS_QUERY.
  destruct (POSTS_QUERY_matches ds) as [|m ms] eqn:Em.
  - split; [intros _ d [] | intros _; eexists; reflexivity].
  - unfold Index.BlogIndexPage_of. cbn [map no_length length Nat.eqb].
    change (POSTS_QUERY_projection ds m :: map (POSTS_QUERY_projection ds) ms)
      with (map (POSTS_QUERY_projection ds) (m :: ms)).
    pose proof (mapM_Normal_iff post_card (map (POSTS_QUERY_projection ds) (m :: ms))) as M.
    rewrite Forall_forall in M. split.
    + intros [view H] d Hd.
      destruct (mapM post_card (map (POSTS_QUERY_projection ds) (m :: ms)))
        as [cards|]; [|discriminate].
      apply Hready; trivial. apply post_card_Normal_iff.
      apply (proj1 M (ex_intro _ cards eq_refl)). now apply in_map.
    + intros H. destruct (proj2 M) as [cards Hc].
      * intros p Hp. apply in_map_iff in Hp. destruct Hp as (d & <- & Hd).
        apply post_card_Normal_iff, Hready; auto.
      * rewrite Hc. simpl. eauto.
Qed.
End Page.

Lemma BlogIndexPage_cards_witness :
  exists cards,
    Index.BlogIndexPage sample_format_date small_blog = Normal (posts_view cards)
    /\ map card_key cards = [Some "p1"]
    /\ map card_href cards = [Some "/blog/hello"].
Proof.
  destruct (Index.BlogIndexPage sample_format_date small_blog) as [view|e] eqn:E;
    [|discriminate E].
  destruct (BlogIndexPage_cards sample_format_date small_blog view) as (cards & -> & _ & H).
  - discriminate.
  - exact E.
  - exists cards. split; [reflexivity|].
    assert (Em : POSTS_QUERY_matches small_blog = [hello_post]) by reflexivity.
    rewrite Em in H.
    inversion H as [|d card ds' cards' [Hk (c & Hc & Hh)] Hrest]; subst.
    inversion Hrest; subst. injection Hc as <-. simpl. now rewrite Hk, Hh.
Defined.

Lemma BlogIndexPage_renders_iff_witness :
  (exists view, Index.BlogIndexPage sample_format_date small_blog = Normal view)
  /\ ~ (forall d, In d (POSTS_QUERY_matches broken_blog) -> refs_resolve broken_blog d).
Proof.
  assert (Hfmt : forall ds d t, In d (POSTS_QUERY_matches ds) ->
                   Doc.publishedAt d = Some t ->
                   exists s, sample_format_date (Some t) = Normal s)
    by (intros ds d t _ _; simpl; eauto).
  split.
  - apply (BlogIndexPage_renders_iff sample_format_date small_blog (Hfmt small_blog)).
    intros d Hd. vm_compute in Hd. destruct Hd as [<- | []].
    split.
    + exists {| _ref := "azka" |}, (person_doc "azka" "Azka"). split; reflexivity.
    + intros rs r E Hr. injection E as <-. destruct Hr as [<- | []].
      exists (category_doc "c1" "Notes"). reflexivity.
  - intros H.
    apply (BlogIndexPage_renders_iff sample_format_date broken_blog (Hfmt broken_blog))
      in H.
    destruct H as [view H]. discriminate H.
Defined.
End IndexCards.

(** ** The detail query and the detail page *)

Module DetailPageFacts.
Import Detail DetailSpec PageSpec.

Lemma POST_QUERY_match_found (ds : Dataset) (slug : string) (d : Doc.t) :
  In d ds -> POST_QUERY_filter slug d = true ->
  exists d', POST_QUERY_match ds slug = Some d'.
Proof.
  intros Hin Hf. unfold POST_QUERY_match.
  destruct (find (POST_QUERY_filter slug) ds) as [d'|] eqn:E; [eauto|].
  rewrite (find_none _ _ E d Hin) in Hf. discriminate.
Qed.

Lemma POSTS_filter_POST_filter (d : Doc.t) (c : string) :
  Index.POSTS_QUERY_filter d = true -> slug_current d = Some c ->
  POST_QUERY_filter c d = true.
Proof.
  unfold Index.POSTS_QUERY_filter, POST_QUERY_filter.
  rewrite !andb_true_iff. intros [[[Ht _] _] Hst] ->.
  simpl. now rewrite Ht, Hst, String.eqb_refl.
Qed.

(** X7: the detail query returns a post only if it is a stored published
    post whose slug is the requested one, and it returns one whenever the
    dataset holds such a post. *)
Theorem POST_QUERY_found_iff (ds : Dataset) (params : PostPageProps) :
  (forall r, POST_QUERY ds params = Some r ->
     Post._type r = "post"
     /\ Post.status r = Some "published"
     /\ chain current (Post.slug r) = Some (params_slug params)
     /\ exists d, In d ds /\ r = POST_QUERY_projection ds d)
  /\ ((exists r, POST_QUERY ds params = Some r)
      <-> exists d, In d ds /\ POST_QUERY_filter (params_slug params) d = true).
Proof.
  unfold POST_QUERY. split.
  - intros r H.
    destruct (POST_QUERY_match ds (params_slug params)) as [d|] eqn:E; [|discriminate].
    injection H as <-. unfold POST_QUERY_match in E. apply find_some in E.
    destruct E as [Hin Hf].
    apply DetailFacts.POST_QUERY_filter_published in Hf.
    destruct Hf as (Ht & Hs & Hst). simpl. repeat split; eauto.
  - split.
    + intros [r H].
      destruct (POST_QUERY_match ds (params_slug params)) as [d|] eqn:E; [|discriminate].
      apply find_some in E. eauto.
    + intros (d & Hin & Hf).
      destruct (POST_QUERY_match_found ds _ d Hin Hf) as [d' ->]. simpl. eauto.
Qed.

Lemma POST_QUERY_found_iff_witness :
  exists r, POST_QUERY small_blog (request "undated") = Some r
            /\ Post.status r = Some "published"
            /\ chain current (Post.slug r) = Some "undated".
Proof.
  destruct (POST_QUERY_found_iff small_blog (request "undated")) as [Hsound [_ Hfound]].
  destruct Hfound as [r Hr].
  - exists undated_post. split; [simpl; auto | reflexivity].
  - exists r. destruct (Hsound r Hr) as (_ & Hst & Hs & _). auto.
Defined.

(** X8: every link of the index leads to a post: for a document the index
    query selects, the detail query for its slug returns a published post
    with that slug, and returns that very document when no other stored
    post passes the detail filter for the slug. *)
Theorem index_links_resolve (ds : Dataset) (d : Doc.t) (c : string) :
  In d (Index.POSTS_QUERY_matches ds) -> slug_current d = Some c ->
  exists r,
    POST_QUERY ds (request c) = Some r
    /\ chain current (Post.slug r) = Some c
    /\ Post.status r = Some "published"
    /\ ((forall d', In d' ds -> POST_QUERY_filter c d' = true -> d' = d) ->
        r = POST_QUERY_projection ds d).
Proof.
  intros Hd Hc. apply IndexFacts.POSTS_QUERY_matches_incl in Hd.
  destruct Hd as [Hin Hf].
  pose proof (POSTS_filter_POST_filter d c Hf Hc) as Hdf.
  destruct (POST_QUERY_match_found ds c d Hin Hdf) as [d' E].
  exists (POST_QUERY_projection ds d'). unfold POST_QUERY. simpl. rewrite E. simpl.
  unfold POST_QUERY_match in E. apply find_some in E. destruct E as [Hin' Hf'].
  pose proof (DetailFacts.POST_QUERY_filter_published _ _ Hf') as (_ & Hs & Hst).
  repeat split; trivial.
  intros Huniq. now rewrite (Huniq d' Hin' Hf').
Qed.

Lemma index_links_resolve_witness :
  POST_QUERY small_blog (request "hello")
  = Some (POST_QUERY_projection small_blog hello_post).
Proof.
  destruct (index_links_resolve small_blog hello_post "hello") as (r & -> & _ & _ & H).
  - vm_compute. auto.
  - reflexivity.
  - f_equal. apply H. intros d' Hin Hf. simpl in Hin.
    destruct Hin as [<- | [<- | [<- | [<- | []]]]]; try discriminate Hf; reflexivity.
Defined.

(** X9: a published post with a slug but without a publication timestamp
    is never listed by the index query, yet the detail query for its slug
    returns a post. *)
Theorem unlisted_but_reachable (ds : Dataset) (d : Doc.t) (c : string) :
  In d ds ->
  Doc._type d = "post" -> Doc.status d = Some "published" ->
  slug_current d = Some c -> Doc.publishedAt d = None ->
  ~ In d (Index.POSTS_QUERY_matches ds)
  /\ exists r, POST_QUERY ds (request c) = Some r.
Proof.
  intros Hin Ht Hst Hc Hp. split.
  - intros H. apply IndexFacts.POSTS_QUERY_matches_incl in H. destruct H as [_ Hf].
    apply IndexFacts.POSTS_QUERY_filter_eligible in Hf.
    destruct Hf as (_ & _ & _ & t & Hpt). congruence.
  - assert (Hf : POST_QUERY_filter c d = true).
    { unfold POST_QUERY_filter. rewrite Ht, Hc, Hst. simpl.
      now rewrite String.eqb_refl. }
    destruct (POST_QUERY_match_found ds c d Hin Hf) as [d' E].
    unfold POST_QUERY. simpl. rewrite E. simpl. eauto.
Qed.

Lemma unlisted_but_reachable_witness :
  ~ In undated_post (Index.POSTS_QUERY_matches small_blog)
  /\ exists r, POST_QUERY small_blog (request "undated") = Some r.
Proof.
  apply unlisted_but_reachable; try reflexivity. simpl. auto.
Defined.

(** X12: when the top-level statements of the detail page module run to
    the end, the builder carries the configured project and dataset
    identifiers, neither is empty, and no source, width or height is set. *)
Theorem module_init_builder (config : ClientConfig.t) (b : ImageUrlBuilder) :
  module_init config = Normal b ->
  ClientConfig.projectId config = Some (projectId b) /\ projectId b <> ""
  /\ ClientConfig.dataset config = Some (dataset b) /\ dataset b <> ""
  /\ source b = None /\ width b = None /\ height b = None.
Proof.
  unfold module_init.
  destruct (ClientConfig.projectId config) as [p|]; [|discriminate].
  destruct (ClientConfig.dataset config) as [d|];
    [|simpl; rewrite orb_true_r; discriminate].
  simpl. destruct (String.eqb_spec p ""); [discriminate|].
  destruct (String.eqb_spec d ""); [discriminate|].
  simpl. intros H. injection H as <-. simpl. auto 10.
Qed.

Lemma module_init_builder_witness :
  ClientConfig.projectId client = Some "ppql4ntm"
  /\ ClientConfig.dataset client = Some "production".
Proof.
  destruct (module_init_builder client (imageUrlBuilder "ppql4ntm" "production") eq_refl)
    as (Hp & _ & Hd & _).
  split; [exact Hp | exact Hd].
Defined.

Section Page.
Variable builder : ImageUrlBuilder.
Variable url : ImageUrlBuilder -> Completion (option string).
Variable format_date : option string -> Completion string.
Variable cn : list (option string) -> string.

Abbreviation PostPage_of := (PostPage_of builder url format_date cn).
Abbreviation PostPage := (PostPage builder url format_date cn).

Lemma PostPage_of_found (post : Post.t) (view : ReactNode) :
  PostPage_of (Some post) = Normal view ->
  exists imageUrl article,
    mainImageUrl builder url post = Normal imageUrl
    /\ Post.author post <> None
    /\ (forall cs, Post.categories post = Some cs -> ~ In None cs)
    /\ view = Element "main" [className "container mx-auto min-h-screen max-w-3xl p-8"]
                [ Element "Link"
                    [("href", PStr "/");
                     className "text-blue-600 hover:underline mb-8 inline-block"]
                    [Text "← Back to posts"];
                  Element "article" [className "space-y-8"]
                    (main_image_fragment post imageUrl ++ article) ].
Proof.
  unfold Detail.PostPage_of. intros H.
  destruct (mainImageUrl builder url post) as [imageUrl|]; [|discriminate].
  cbn [bind] in H.
  destruct (format_date (Post.publishedAt post)) as [date|]; [|discriminate].
  cbn [bind] in H.
  destruct (Post.author post) as [a|] eqn:Ea; [|discriminate]. cbn [author_name bind] in H.
  destruct (categories_fragment (Post.categories post)) as [cats|] eqn:Ec; [|discriminate].
  cbn [bind] in H.
  destruct (Detail.PortableText builder url cn _) as [body|]; [|discriminate].
  cbn [bind] in H. injection H as <-.
  exists imageUrl. eexists. repeat split; try discriminate.
  intros cs Hcs Hin. rewrite Hcs in Ec. unfold categories_fragment in Ec.
  destruct cs as [|c cs]; [easy|].
  destruct (mapM category_title (c :: cs)) as [titles|] eqn:Em; [|discriminate].
  assert (M : exists bs, mapM category_title (c :: cs) = Normal bs) by eauto.
  apply mapM_Normal_iff in M. rewrite Forall_forall in M.
  destruct (M None Hin) as [b Hb]. discriminate.
Qed.

(** X10: the detail page returns the "Post not found" view exactly when no
    stored document passes the filter of the detail query; a post that is
    found never renders as that view. *)
Theorem PostPage_not_found_iff (ds : Dataset) (params : PostPageProps) :
  PostPage ds params = Normal not_found_view
  <-> (forall d, In d ds -> POST_QUERY_filter (params_slug params) d = false).
Proof.
  unfold Detail.PostPage, POST_QUERY. split.
  - intros H d Hin.
    destruct (POST_QUERY_filter (params_slug params) d) eqn:Hf; trivial.
    destruct (POST_QUERY_match_found ds _ d Hin Hf) as [d' E].
    rewrite E in H. simpl option_map in H.
    apply PostPage_of_found in H. destruct H as (imageUrl & article & _ & _ & _ & H).
    discriminate H.
  - intros H. now rewrite (DetailFacts.POST_QUERY_match_none _ _ H).
Qed.

(** C6: when no document of the dataset passes the filter of the detail
    query, [PostPage] returns normally the view whose texts are the link
    back to the posts and the heading "Post not found", a view that no
    found post renders as, and [generateMetadata], on its own fetch,
    returns normally metadata with the title "Post Not Found" and neither
    description nor keywords. *)
Theorem not_found_views (ds : Dataset) (params : PostPageProps) :
  (forall d, In d ds -> POST_QUERY_filter (params_slug params) d = false) ->
  PostPage ds params = Normal not_found_view
  /\ node_texts not_found_view = ["← Back to posts"; "Post not found"]
  /\ (forall post view, PostPage_of (Some post) = Normal view -> view <> not_found_view)
  /\ exists m,
       generateMetadata ds params = Normal m
       /\ meta_title m = Some "Post Not Found"
       /\ meta_description m = None
       /\ meta_keywords m = None.
Proof.
  intros H.
  pose proof (DetailFacts.POST_QUERY_match_none _ _ H) as E.
  repeat match goal with |- _ /\ _ => split end.
  - unfold Detail.PostPage, POST_QUERY. now rewrite E.
  - reflexivity.
  - intros post view Hv. apply PostPage_of_found in Hv.
    destruct Hv as (imageUrl & article & _ & _ & _ & ->). discriminate.
  - unfold generateMetadata, POST_QUERY. rewrite E. simpl. eauto.
Qed.

(** X11: the detail page renders a found post only if the stored document
    has an author reference that resolves and only category references
    that resolve; with a missing or dangling reference it throws. *)
Theorem PostPage_needs_references (ds : Dataset) (params : PostPageProps)
  (d : Doc.t) (view : ReactNode) :
  POST_QUERY_match ds (params_slug params) = Some d ->
  PostPage ds params = Normal view ->
  refs_resolve ds d.
Proof.
  intros E H. unfold Detail.PostPage, POST_QUERY in H. rewrite E in H.
  simpl option_map in H. apply PostPage_of_found in H.
  destruct H as (_ & _ & _ & Ha & Hc & _). simpl in Ha, Hc.
  unfold deref_author, deref_categories in *. split.
  - destruct (Doc.author d) as [r|]; [|easy].
    destruct (deref ds r) as [a|] eqn:Er; [eauto | easy].
  - intros rs r Hrs Hr. rewrite Hrs in Hc. simpl in Hc.
    destruct (deref ds r) as [a|] eqn:Er; [eauto|].
    exfalso. apply (Hc _ eq_refl). apply in_map_iff. exists r. now rewrite Er.
Qed.

(** X13: when the detail page renders a post that has a main image and the
    deriver returns a URL for it, that URL was asked for at width 1200 and
    height 675 on the module's builder, and it is the first image URL of
    the page. *)
Theorem PostPage_hero_image (post : Post.t) (view : ReactNode)
  (i : SanityImage) (u : string) :
  PostPage_of (Some post) = Normal view ->
  Post.mainImage post = Some i ->
  url (hero_request builder i) = Normal (Some u) -> u <> "" ->
  (exists rest, node_urls view = u :: rest)
  /\ width (hero_request builder i) = Some 1200%Z
  /\ height (hero_request builder i) = Some 675%Z
  /\ source (hero_request builder i) = Some i
  /\ projectId (hero_request builder i) = projectId builder
  /\ dataset (hero_request builder i) = dataset builder.
Proof.
  intros H Hi Hu Hne. split; [|repeat split].
  apply PostPage_of_found in H. destruct H as (imageUrl & article & Hm & _ & _ & ->).
  unfold mainImageUrl in Hm. rewrite Hi in Hm. unfold hero_request in Hu.
  rewrite Hu in Hm. injection Hm as <-.
  unfold main_image_fragment.
  assert (Ht : truthy (Some u) = true).
  { simpl. apply String.eqb_neq in Hne. now rewrite Hne. }
  rewrite Ht. cbn. eauto.
Qed.
End Page.

Lemma not_found_views_witness :
  PostPage production cdn_url IndexSpec.sample_format_date cn_join
    three_statuses (request "wip")
  = Normal not_found_view
  /\ exists m,
       generateMetadata three_statuses (request "wip") = Normal m
       /\ meta_title m = Some "Post Not Found".
Proof.
  destruct (not_found_views production cdn_url IndexSpec.sample_format_date cn_join
              three_statuses (request "wip")) as (Hv & _ & _ & m & Hm & Ht & _).
  - intros d Hd. simpl in Hd.
    destruct Hd as [<- | [<- | [<- | []]]]; reflexivity.
  - split; [exact Hv | exists m; split; [exact Hm | exact Ht]].
Defined.

Lemma PostPage_not_found_iff_witness :
  PostPage production cdn_url IndexSpec.sample_format_date cn_join
    three_statuses (request "wip")
  = Normal not_found_view.
Proof.
  apply PostPage_not_found_iff. intros d Hd. simpl in Hd.
  destruct Hd as [<- | [<- | [<- | []]]]; reflexivity.
Defined.

Lemma PostPage_needs_references_witness : refs_resolve small_blog hello_post.
Proof.
  destruct (PostPage production cdn_url IndexSpec.sample_format_date cn_join
              small_blog (request "hello")) as [view|e] eqn:E; [|discriminate E].
  apply (PostPage_needs_references production cdn_url IndexSpec.sample_format_date cn_join
           small_blog (request "hello") hello_post view); [reflexivity | exact E].
Defined.

Lemma PostPage_hero_image_witness :
  exists view rest,
    PostPage production cdn_url IndexSpec.sample_format_date cn_join
      cover_blog (request "cover") = Normal view
    /\ node_urls view
       = "https://cdn.sanity.io/images/ppql4ntm/production/image-abc-1200x800-png?w=1200&h=675"
         :: rest.
Proof.
  destruct (PostPage production cdn_url IndexSpec.sample_format_date cn_join
              cover_blog (request "cover")) as [view|e] eqn:E; [|discriminate E].
  destruct (PostPage_hero_image production cdn_url IndexSpec.sample_format_date cn_join
              (POST_QUERY_projection cover_blog cover_post) view
              {| asset := Some {| _ref := "image-abc-1200x800-png" |};
                 alt := None; caption := None |}
              "https://cdn.sanity.io/images/ppql4ntm/production/image-abc-1200x800-png?w=1200&h=675")
    as [[rest Hrest] _].
  - exact E.
  - reflexivity.
  - reflexivity.
  - discriminate.
  - exists view, rest. split; [reflexivity | exact Hrest].
Defined.
End DetailPageFacts.

(** ** Start-up *)

Module StartupFacts.
Import Detail DetailSpec Startup.

(** C9, as stated: with the dataset identifier missing the index page
    module still loads, so it is not the case that no page can be served. *)
Lemma index_loads_without_dataset :
  ~ startup_claim cdn_url IndexSpec.sample_format_date cn_join no_dataset.
Proof.
  intros [H _]. destruct H as [[e He] _].
  - right. left. reflexivity.
  - discriminate He.
Qed.

Section Load.
Variable url : ImageUrlBuilder -> Completion (option string).
Variable format_date : option string -> Completion string.
Variable cn : list (option string) -> string.

Abbreviation load_index := (load_index format_date).
Abbreviation load_detail := (load_detail url format_date cn).

(** C9, amended: when the project identifier is missing, creating the
    client throws and neither page module loads; when only the dataset
    identifier is missing, the detail page module throws "Sanity project ID
    and dataset are required" before any of its exports exist, while the
    index page module, which has no guard, loads; when both are present
    both modules load and [urlFor] builds on a builder that carries them. *)
Theorem startup_by_module (config : ClientConfig.t) :
  (missing (ClientConfig.projectId config) ->
   exists e, createClient config = Throw e
             /\ load_index config = Throw e /\ load_detail config = Throw e)
  /\ (forall p, ClientConfig.projectId config = Some p -> p <> "" ->
        missing (ClientConfig.dataset config) ->
        load_detail config = Throw config_error
        /\ exists m, load_index config = Normal m)
  /\ (forall p d,
        ClientConfig.projectId config = Some p -> p <> "" ->
        ClientConfig.dataset config = Some d -> d <> "" ->
        (exists m, load_index config = Normal m)
        /\ exists m, load_detail config = Normal m
                     /\ forall s, module_urlFor m s = with_image s (imageUrlBuilder p d)).
Proof.
  unfold Startup.load_index, Startup.load_detail, createClient, load, module_init.
  repeat match goal with |- _ /\ _ => split end.
  - intros H. apply DetailFacts.truthy_false_iff in H. rewrite H. simpl. eauto.
  - intros p Hp Hpe Hd. rewrite Hp. apply String.eqb_neq in Hpe.
    simpl. rewrite Hpe. simpl. rewrite Hp. simpl. rewrite Hpe. simpl.
    apply DetailFacts.truthy_false_iff in Hd. rewrite Hd. simpl. eauto.
  - intros p d Hp Hpe Hd Hde. rewrite Hp. apply String.eqb_neq in Hpe, Hde.
    simpl. rewrite Hpe. simpl. split; [eauto|].
    rewrite Hp, Hd. simpl. rewrite Hpe, Hde. simpl.
    eexists. split; reflexivity.
Qed.
End Load.

Lemma startup_by_module_witness :
  Startup.load_detail cdn_url IndexSpec.sample_format_date cn_join no_dataset
  = Throw config_error
  /\ (exists m, Startup.load_index IndexSpec.sample_format_date no_dataset = Normal m)
  /\ (exists m, Startup.load_detail cdn_url IndexSpec.sample_format_date cn_join client
                = Normal m).
Proof.
  destruct (startup_by_module cdn_url IndexSpec.sample_format_date cn_join no_dataset)
    as (_ & H & _).
  destruct (H "ppql4ntm" eq_refl ltac:(discriminate) (or_introl eq_refl)) as [Hd Hi].
  destruct (startup_by_module cdn_url IndexSpec.sample_format_date cn_join client)
    as (_ & _ & Hc).
  destruct (Hc "ppql4ntm" "production" eq_refl ltac:(discriminate)
              eq_refl ltac:(discriminate)) as (_ & m & Hm & _).
  split; [exact Hd | split; [exact Hi | exists m; exact Hm]].
Defined.
End StartupFacts.

